(** * Synthetic mental-health demand generator

    A shallow embedding of [src/generate_mental_health_data.py].

    Conventions of the embedding.
    - A pandas [Timestamp] at midnight is the number of days since
      1970-01-01 (an integer); [year], [month], [dayofweek] and the ISO
      week are computed from it with the proleptic Gregorian calendar.
    - The decimal literals of the source (weights, multipliers) are exact
      rationals ([Q]).  The expected count goes through [np.sin] and
      [np.pi], so it lives in the reals ([R]); [Q2R] injects the rational
      factors.
    - numpy's global generator is an explicit state of an abstract type
      [rng]; [np.random.poisson] and [np.random.multinomial] are state
      transformers over it.  What numpy guarantees about them is stated as
      hypotheses where a theorem needs it.
    - A raised Python exception is the [Raise] outcome of a computation. *)

From Stdlib Require Import Floats.
From Stdlib Require Import ZArith List String Ascii Bool QArith Reals Lra Lia.
From Stdlib Require Import Qreals Qabs.
From Stdlib Require Import Permutation Sorted Orders Mergesort.
Import ListNotations.
Local Open Scope string_scope.
Local Open Scope list_scope.
Local Open Scope Z_scope.

Set Implicit Arguments.
Set Warnings "-inexact-float".

(* ------------------------------------------------------------------ *)
(** ** Calendar: what pandas derives from a date *)

Module Calendar.

(** Days since 1970-01-01. *)
Definition timestamp := Z.

(** Day number of the civil date [y]-[m]-[d]. *)
Definition days_from_civil (y m d : Z) : timestamp :=
  let y' := if m <=? 2 then y - 1 else y in
  let era := y' / 400 in
  let yoe := y' - era * 400 in
  let mp := (m + 9) mod 12 in
  let doy := (153 * mp + 2) / 5 + d - 1 in
  let doe := yoe * 365 + yoe / 4 - yoe / 100 + doy in
  era * 146097 + doe - 719468.

(** Civil date (year, month, day) of a day number. *)
Definition civil_from_days (z : timestamp) : Z * Z * Z :=
  let z0 := z + 719468 in
  let era := z0 / 146097 in
  let doe := z0 - era * 146097 in
  let yoe := (doe - doe / 1460 + doe / 36524 - doe / 146096) / 365 in
  let doy := doe - (365 * yoe + yoe / 4 - yoe / 100) in
  let mp := (5 * doy + 2) / 153 in
  let d := doy - (153 * mp + 2) / 5 + 1 in
  let m := if mp <? 10 then mp + 3 else mp - 9 in
  let y := yoe + era * 400 in
  (if m <=? 2 then y + 1 else y, m, d).

(** [date.year], [date.month]. *)
Definition dt_year (z : timestamp) : Z := fst (fst (civil_from_days z)).
Definition dt_month (z : timestamp) : Z := snd (fst (civil_from_days z)).

(** [date.dayofweek]: 0 = Monday .. 6 = Sunday (1970-01-01 was a
    Thursday). *)
Definition dt_dayofweek (z : timestamp) : Z := (z + 3) mod 7.

(** [date.isocalendar().week]: the week of the Thursday of the date's
    Monday-to-Sunday week, counted within that Thursday's year. *)
Definition dt_isoweek (z : timestamp) : Z :=
  let thursday := z - dt_dayofweek z + 3 in
  (thursday - days_from_civil (dt_year thursday) 1 1) / 7 + 1.

(** [pd.date_range(start, end, freq='D')]: every day of the closed range,
    ascending; empty when [end_date] is before [start_date]. *)
Definition date_range (start_date end_date : timestamp) : list timestamp :=
  map (fun i => start_date + Z.of_nat i)
      (seq 0 (Z.to_nat (end_date - start_date + 1))).

(** [date.dt.to_period('M').astype(str)]: the text YYYY-MM. *)
Definition digit (n : Z) : ascii := ascii_of_nat (48 + Z.to_nat (n mod 10)).

Definition period_M (z : timestamp) : string :=
  let y := dt_year z in
  let m := dt_month z in
  String (digit (y / 1000)) (String (digit (y / 100)) (String (digit (y / 10))
    (String (digit y) (String "-"%char
      (String (digit (m / 10)) (String (digit m) EmptyString)))))).

End Calendar.
Import Calendar.

(* ------------------------------------------------------------------ *)
(** ** Fixed tables of the module *)

Definition HEALTH_BOARDS : list string :=
  [ "NHS Ayrshire and Arran"; "NHS Borders"; "NHS Dumfries and Galloway";
    "NHS Fife"; "NHS Forth Valley"; "NHS Grampian";
    "NHS Greater Glasgow and Clyde"; "NHS Highland"; "NHS Lanarkshire";
    "NHS Lothian"; "NHS Orkney"; "NHS Shetland"; "NHS Tayside";
    "NHS Western Isles" ].

Definition AGE_GROUPS : list string :=
  [ "0-17"; "18-25"; "26-35"; "36-45"; "46-55"; "56-65"; "66-75"; "76+" ].

Definition SIMD_QUINTILES : list Z := [1; 2; 3; 4; 5].

Definition PRESENTATION_TYPES : list string :=
  [ "Self Harm"; "Suicidal Ideation"; "Acute Anxiety"; "Depression";
    "Psychosis"; "Substance Abuse"; "Eating Disorder"; "Other" ].

(** The dict literal [board_multipliers] of [generate_time_series_data]. *)
Definition board_multipliers : list (string * Q) :=
  [ ("NHS Greater Glasgow and Clyde", 2.5); ("NHS Lothian", 2.0);
    ("NHS Lanarkshire", 1.5); ("NHS Grampian", 1.3); ("NHS Tayside", 1.2);
    ("NHS Fife", 1.0); ("NHS Ayrshire and Arran", 1.0);
    ("NHS Highland", 0.9); ("NHS Forth Valley", 0.8);
    ("NHS Dumfries and Galloway", 0.6); ("NHS Borders", 0.4);
    ("NHS Western Isles", 0.2); ("NHS Orkney", 0.15);
    ("NHS Shetland", 0.15) ]%Q.

(** The dict literal indexed by [day_of_week]. *)
Definition day_factors : list (Z * Q) :=
  [ (0, 1.3%Q); (1, 1.1%Q); (2, 1.0%Q); (3, 1.0%Q); (4, 1.1%Q);
    (5, 0.9%Q); (6, 0.85%Q) ].

(** The three weight lists; the source rebinds each one inside the loop
    to the same literal. *)
Definition age_weights : list Q :=
  [0.08; 0.25; 0.20; 0.15; 0.15; 0.10; 0.05; 0.02]%Q.

Definition simd_weights : list Q := [0.35; 0.25; 0.20; 0.12; 0.08]%Q.

Definition type_weights : list Q :=
  [0.18; 0.22; 0.15; 0.20; 0.08; 0.10; 0.03; 0.04]%Q.

(* ------------------------------------------------------------------ *)
(** ** Python containers *)

(** Lookup in a dict literal, keys compared with [eqb]. *)
Fixpoint dict_lookup (K V : Type) (eqb : K -> K -> bool)
  (d : list (K * V)) (k : K) : option V :=
  match d with
  | [] => None
  | (k', v) :: rest => if eqb k k' then Some v else dict_lookup eqb rest k
  end.

(** [d.get(k, default)]. *)
Definition dict_get (V : Type) (d : list (string * V)) (k : string)
  (default : V) : V :=
  match dict_lookup String.eqb d k with
  | Some v => v
  | None => default
  end.

(** [enumerate(l)]. *)
Definition enumerate (A : Type) (l : list A) : list (nat * A) :=
  combine (seq 0 (List.length l)) l.

(** Sum of a list of integers and of rationals. *)
Definition zsum (l : list Z) : Z := fold_right Z.add 0 l.
Definition qsum (l : list Q) : Q := fold_right Qplus 0%Q l.

(** The binary64 value Python stores for a decimal literal: the correctly
    rounded quotient of numerator and denominator, both exact in
    binary64 here.  [fsum] is Python's [sum]: left to right from 0. *)
Definition Q2F (q : Q) : float :=
  PrimFloat.div (PrimFloat.of_uint63 (Uint63.of_Z (Qnum q)))
    (PrimFloat.of_uint63 (Uint63.of_Z (Zpos (Qden q)))).

Definition fsum (l : list float) : float :=
  fold_left PrimFloat.add l PrimFloat.zero.

(* ------------------------------------------------------------------ *)
(** ** Records of the tables *)

(** One dict appended to [data]: a row of the frame that
    [generate_time_series_data] returns. *)
Record record : Type := mk_record {
  date : timestamp;
  health_board : string;
  age_group : string;
  simd_quintile : Z;
  presentation_type : string;
  presentations : Z
}.

(** A row of the full table after [generate_complete_dataset] has attached
    the calendar columns. *)
Record row : Type := mk_row {
  base :> record;
  year : Z;
  month : Z;
  day_of_week : Z;
  week_of_year : Z;
  is_weekend : Z
}.

(** Total of the [presentations] column. *)
Definition total (rows : list record) : Z := zsum (map presentations rows).

(* ------------------------------------------------------------------ *)
(** ** Outcomes *)

Inductive exn : Type :=
| IndexError
| KeyError.

Inductive result (A : Type) : Type :=
| Ok (a : A)
| Raise (e : exn).

Arguments Ok {A} a.
Arguments Raise {A} e.

(* ------------------------------------------------------------------ *)
(** ** The deterministic factors of the expected count *)

(** [1.0 + 0.3 * np.sin(2 * np.pi * (month - 1) / 12 + np.pi)]. *)
Definition seasonal_factor (month : Z) : R :=
  (1.0 + 0.3 * sin (2 * PI * IZR (month - 1) / 12 + PI))%R.

(** [covid_factor]: 1.4 in 2020 and 2021, 1.2 in 2022, else 1.0. *)
Definition covid_factor (year : Z) : Q :=
  if (2020 <=? year) && (year <=? 2021) then 1.4%Q
  else if year =? 2022 then 1.2%Q
  else 1.0%Q.

(** [year_trend = 1.0 + 0.05 * (year - 2019)]. *)
Definition year_trend (year : Z) : Q :=
  (1.0 + 0.05 * inject_Z (year - 2019))%Q.

(** [base_demand = 50 * board_multipliers.get(health_board, 1.0)]. *)
Definition base_demand (health_board : string) : Q :=
  (50 * dict_get board_multipliers health_board 1.0)%Q.

(** [expected_presentations]: the product of line 84, left to right.  The
    dict index [day_factors[day_of_week]] raises [KeyError] on a key
    outside 0..6. *)
Definition expected_presentations (base_demand : Q)
  (day_of_week month year : Z) : result R :=
  match dict_lookup Z.eqb day_factors day_of_week with
  | None => Raise KeyError
  | Some day_factor =>
      Ok (Q2R base_demand * seasonal_factor month * Q2R day_factor
          * Q2R (covid_factor year) * Q2R (year_trend year))%R
  end.

(* ------------------------------------------------------------------ *)
(** ** Computations over the generator state *)

(** A computation reads and advances the state of numpy's global generator
    and either returns a value or raises. *)
Definition M (rng A : Type) : Type := rng -> result (A * rng).

Definition ret (rng A : Type) (a : A) : M rng A := fun s => Ok (a, s).
Arguments ret {rng A} a.

Definition bind (rng A B : Type) (m : M rng A) (k : A -> M rng B) : M rng B :=
  fun s =>
    match m s with
    | Ok (a, s') => k a s'
    | Raise e => Raise e
    end.

Definition raise (rng A : Type) (e : exn) : M rng A := fun _ => Raise e.
Arguments raise {rng A} e.

(** A call into numpy's sampler. *)
Definition draw (rng A : Type) (f : rng -> A * rng) : M rng A :=
  fun s => Ok (f s).

(** The outcome of a pure step that may raise. *)
Definition lift (rng A : Type) (r : result A) : M rng A :=
  fun s =>
    match r with
    | Ok a => Ok (a, s)
    | Raise e => Raise e
    end.
Arguments lift {rng A} r.

Notation "x <- m ;; k" := (bind m (fun x => k))
  (at level 61, m at next level, right associativity).

(** [l[i]] on the array a sampler returned: [IndexError] out of range. *)
Definition index (rng : Type) (l : list Z) (i : nat) : M rng Z :=
  match nth_error l i with
  | Some x => ret x
  | None => raise IndexError
  end.
Arguments index {rng} l i.

(** A [for] loop that threads the accumulator [acc] (the list [data] the
    source appends to) through the iterations. *)
Fixpoint for_each (rng A S : Type) (l : list A) (body : S -> A -> M rng S)
  (acc : S) : M rng S :=
  match l with
  | [] => ret acc
  | x :: rest => acc' <- body acc x ;; for_each rest body acc'
  end.

(** The shape shared by the three nested loops:
    [for idx, x in enumerate(labels): c = dist[idx]; if c > 0: inner]. *)
Definition for_positive (rng A : Type) (labels : list A) (dist : list Z)
  (inner : A -> Z -> list record -> M rng (list record))
  (data : list record) : M rng (list record) :=
  for_each (enumerate labels)
    (fun data '(idx, x) =>
       c <- index dist idx ;;
       if 0 <? c then inner x c data else ret data)
    data.

(* ------------------------------------------------------------------ *)
(** ** Grouped sums *)

Section GroupBy.

Variable K : Type.
Variable key_eqb : K -> K -> bool.
Variable key_leb : K -> K -> bool.

(** Add [v] to the running sum of the group [k]; a key seen for the first
    time opens a new group. *)
Fixpoint agg_add (k : K) (v : Z) (acc : list (K * Z)) : list (K * Z) :=
  match acc with
  | [] => [(k, v)]
  | (k', v') :: rest =>
      if key_eqb k k' then (k', v' + v) :: rest
      else (k', v') :: agg_add k v rest
  end.

(** One pass over the frame, summing [presentations] per group. *)
Definition group_sums (key : row -> K) (df : list row) : list (K * Z) :=
  fold_left (fun acc r => agg_add (key r) (presentations r) acc) df [].

(** The groups come out ordered by key. *)
Fixpoint insert_group (g : K * Z) (l : list (K * Z)) : list (K * Z) :=
  match l with
  | [] => [g]
  | h :: rest =>
      if key_leb (fst g) (fst h) then g :: l else h :: insert_group g rest
  end.

Definition sort_groups (l : list (K * Z)) : list (K * Z) :=
  fold_right insert_group [] l.

(** [df.groupby(keys).agg({'presentations': 'sum'}).reset_index()]. *)
Definition groupby_sum (key : row -> K) (df : list row) : list (K * Z) :=
  sort_groups (group_sums key df).

End GroupBy.

Definition string_leb (a b : string) : bool :=
  match String.compare a b with
  | Gt => false
  | _ => true
  end.

(** Keys of the daily summary: [(date, health_board)]. *)
Definition daily_key (r : row) : timestamp * string :=
  (date r, health_board r).

Definition daily_key_eqb (a b : timestamp * string) : bool :=
  (fst a =? fst b) && String.eqb (snd a) (snd b).

Definition daily_key_leb (a b : timestamp * string) : bool :=
  if fst a <? fst b then true
  else if fst a =? fst b then string_leb (snd a) (snd b)
  else false.

(** Keys of the monthly summary:
    [(month as YYYY-MM, health_board, age_group, simd_quintile)]. *)
Definition monthly_key (r : row) : string * string * string * Z :=
  (period_M (date r), health_board r, age_group r, simd_quintile r).

Definition monthly_key_eqb (a b : string * string * string * Z) : bool :=
  let '(m1, h1, a1, q1) := a in
  let '(m2, h2, a2, q2) := b in
  String.eqb m1 m2 && String.eqb h1 h2 && String.eqb a1 a2 && (q1 =? q2).

Definition monthly_key_leb (a b : string * string * string * Z) : bool :=
  let '(m1, h1, a1, q1) := a in
  let '(m2, h2, a2, q2) := b in
  match String.compare m1 m2 with
  | Lt => true
  | Gt => false
  | Eq =>
      match String.compare h1 h2 with
      | Lt => true
      | Gt => false
      | Eq =>
          match String.compare a1 a2 with
          | Lt => true
          | Gt => false
          | Eq => q1 <=? q2
          end
      end
  end.

Definition daily_summary (df : list row) : list (timestamp * string * Z) :=
  groupby_sum daily_key_eqb daily_key_leb daily_key df.

Definition monthly_summary (df : list row)
  : list (string * string * string * Z * Z) :=
  groupby_sum monthly_key_eqb monthly_key_leb monthly_key df.

(** The three tables [save_data(df)] writes: the full table, the daily
    summary and the monthly summary. *)
Definition save_data (df : list row)
  : list row * list (timestamp * string * Z)
    * list (string * string * string * Z * Z) :=
  (df, daily_summary df, monthly_summary df).

(* ------------------------------------------------------------------ *)
(** ** The generator *)

Section Generator.

(** State of numpy's global generator and the two samplers used.  They
    are total functions here, while numpy itself raises [ValueError] on a
    negative [lam], a negative [n] or invalid [pvals]: that exception is
    not part of the model.  The multinomial is always called with
    [n >= 0] and valid [pvals].  The Poisson mean is negative on every
    day before 1999, so what the model returns for such a day says
    nothing about the code; the statements that a run returns are made
    for ranges from 1999-01-01 on, where the mean is shown to be
    accepted. *)
Variable rng : Type.
Variable np_random_poisson : R -> rng -> Z * rng.
Variable np_random_multinomial : Z -> list Q -> rng -> list Z * rng.

(** [df.sort_values('date')]: pandas sorts with an unstable quicksort, so
    the order among rows of one date is left to the library. *)
Variable sort_values : list record -> list record.

(** [np.random.seed(k)] at import time. *)
Variable np_random_seed : Z -> rng -> rng.

(** Lines 101-115: split one (age, quintile) cell over the presentation
    types and append a record for every positive count. *)
Definition split_types (d : timestamp) (hb age : string) (simd : Z)
  (simd_presentations : Z) (data : list record) : M rng (list record) :=
  type_distributions <-
    draw (np_random_multinomial simd_presentations type_weights) ;;
  for_positive PRESENTATION_TYPES type_distributions
    (fun pres_type count data =>
       ret (data ++ [mk_record d hb age simd pres_type count]))
    data.

(** Lines 94-115: split one age bucket over the quintiles. *)
Definition split_simd (d : timestamp) (hb age : string)
  (age_presentations : Z) (data : list record) : M rng (list record) :=
  simd_distributions <-
    draw (np_random_multinomial age_presentations simd_weights) ;;
  for_positive SIMD_QUINTILES simd_distributions
    (fun simd simd_presentations data =>
       split_types d hb age simd simd_presentations data)
    data.

(** Lines 87-115: split the day's total over the age groups. *)
Definition split_ages (d : timestamp) (hb : string) (presentations : Z)
  (data : list record) : M rng (list record) :=
  age_distributions <-
    draw (np_random_multinomial presentations age_weights) ;;
  for_positive AGE_GROUPS age_distributions
    (fun age_group age_presentations data =>
       split_simd d hb age_group age_presentations data)
    data.

(** Lines 70-115: the body of the loop over [dates]. *)
Definition day_body (base_demand : Q) (hb : string) (data : list record)
  (d : timestamp) : M rng (list record) :=
  let day_of_week := dt_dayofweek d in
  let month := dt_month d in
  let year := dt_year d in
  lam <- lift (expected_presentations base_demand day_of_week month year) ;;
  k <- draw (np_random_poisson lam) ;;
  let presentations := Z.max 0 k in
  split_ages d hb presentations data.

(** [generate_time_series_data(start_date, end_date, health_board)];
    [pd.DataFrame(data)] is the list of the appended records. *)
Definition generate_time_series_data (start_date end_date : timestamp)
  (health_board : string) : M rng (list record) :=
  let dates := date_range start_date end_date in
  let base_demand := base_demand health_board in
  for_each dates (day_body base_demand health_board) [].

(** The five derived columns of lines 136-140. *)
Definition attach_calendar (r : record) : row :=
  let day_of_week := dt_dayofweek (date r) in
  mk_row r (dt_year (date r)) (dt_month (date r)) day_of_week
    (dt_isoweek (date r))
    (if existsb (Z.eqb day_of_week) [5; 6] then 1 else 0).

(** [generate_complete_dataset()].  The counter of [enumerate] and the
    statistics are only printed and are left out.  When every board's
    frame is empty the concatenation has no columns and
    [sort_values('date')] raises [KeyError]. *)
Definition generate_complete_dataset : M rng (list row) :=
  let start_date := days_from_civil 2019 1 1 in
  let end_date := days_from_civil 2024 10 31 in
  all_data <-
    for_each HEALTH_BOARDS
      (fun all_data board =>
         board_data <- generate_time_series_data start_date end_date board ;;
         ret (all_data ++ [board_data]))
      [] ;;
  let df := List.concat all_data in
  match df with
  | [] => raise KeyError
  | _ :: _ => ret (map attach_calendar (sort_values df))
  end.

(** One run of the script: the module seeds the global generator with 42
    when it is loaded, whatever state [ambient] the generator was in, and
    the main block generates and saves.  The three tables are what
    [to_csv] is given; the bytes written are not modelled.  A run is a
    function of the seeded state here because numpy and pandas are
    embedded as functions: that two runs of the script agree is a
    property of those libraries and is not a statement about this
    definition. *)
Definition main (ambient : rng)
  : result (list row * list (timestamp * string * Z)
            * list (string * string * string * Z * Z) * rng) :=
  (df <- generate_complete_dataset ;; ret (save_data df))
    (np_random_seed 42 ambient).

End Generator.

(* ------------------------------------------------------------------ *)
(** ** A concrete generator to run the model on

    A linear congruential state and samplers that meet numpy's contract:
    the multinomial throws each of the [n] events into one bucket. *)

Module Toy.

Definition rng := Z.

Definition lcg (s : rng) : rng := (1103515245 * s + 12345) mod 2147483648.

Definition poisson (lam : R) (s : rng) : Z * rng :=
  ((s / 65536) mod 4, lcg s).

Fixpoint bump (i : nat) (l : list Z) : list Z :=
  match l, i with
  | [], _ => []
  | x :: rest, O => (x + 1) :: rest
  | x :: rest, S i' => x :: bump i' rest
  end.

Fixpoint scatter (k : nat) (buckets : Z) (acc : list Z) (s : rng)
  : list Z * rng :=
  match k with
  | O => (acc, s)
  | S k' =>
      scatter k' buckets (bump (Z.to_nat ((s / 65536) mod buckets)) acc)
        (lcg s)
  end.

Definition multinomial (n : Z) (pvals : list Q) (s : rng) : list Z * rng :=
  scatter (Z.to_nat n) (Z.of_nat (List.length pvals))
    (repeat 0 (List.length pvals)) s.

Module DateOrder <: Orders.TotalLeBool.
Definition t := record.
Definition leb (a b : record) : bool := date a <=? date b.
Lemma leb_total : forall a b, leb a b = true \/ leb b a = true.
Proof. intros a b; unfold leb; lia. Qed.
End DateOrder.

Module DateSort := Mergesort.Sort DateOrder.

Definition sort_values (l : list record) : list record := DateSort.sort l.

Definition generate (start_date end_date : timestamp) (hb : string)
  : M rng (list record) :=
  generate_time_series_data poisson multinomial start_date end_date hb.

End Toy.

(** ** A sampler that fires once

    The state counts the Poisson draws made so far; only the fifth draw
    is positive, and the multinomial puts everything in the first bucket.
    Its runs can be followed by hand over the whole configured range. *)

Module Sparse.

Definition rng := Z.

Definition poisson (lam : R) (s : rng) : Z * rng :=
  (if s =? 4 then 1 else 0, s + 1).

Definition multinomial (n : Z) (pvals : list Q) (s : rng) : list Z * rng :=
  (match pvals with
   | [] => []
   | _ :: rest => n :: repeat 0 (List.length rest)
   end, s).

End Sparse.

(** ** A sampler that fires twice

    The state counts the Poisson draws made so far.  Draw number 5 (the
    first board on 2019-01-05) and draw number 2142 (the second board on
    2019-01-11) are 2, every other draw is 0; the multinomial puts one
    event in the second bucket when it has at least two events, and the
    rest in the first.  A run over the configured range then has two
    boards with two rows each. *)

Module Twin.

Definition rng := Z.

Definition poisson (lam : R) (s : rng) : Z * rng :=
  (if (s =? 4) || (s =? 2141) then 2 else 0, s + 1).

Definition multinomial (n : Z) (pvals : list Q) (s : rng) : list Z * rng :=
  (match pvals with
   | [] => []
   | [_] => [n]
   | _ :: _ :: rest =>
       (if 2 <=? n then [n - 1; 1] else [n; 0])
       ++ repeat 0 (List.length rest)
   end, s).

End Twin.


(* ------------------------------------------------------------------ *)
(** ** Reasoning about computations

    [wpe E m post s]: run from state [s], [m] returns a value and a state
    that satisfy [post], or it raises and [E] holds.  With [E := False]
    this is total correctness, with [E := True] partial correctness. *)

Definition wpe (rng A : Type) (E : Prop) (m : M rng A)
  (post : A -> rng -> Prop) (s : rng) : Prop :=
  match m s with
  | Ok (a, s') => post a s'
  | Raise _ => E
  end.

(** What a step appended to [data]: the new list is [data ++ out] and the
    chunk [out] satisfies [Q]. *)
Definition appended (rng : Type) (data : list record)
  (Q : list record -> Prop) : list record -> rng -> Prop :=
  fun data' _ => exists out, data' = data ++ out /\ Q out.

(** Sum of the positive entries: what a loop that skips the entries that
    are not positive accounts for. *)
Definition positive_sum (l : list Z) : Z := zsum (map (Z.max 0) l).

(** [np.random.multinomial(n, pvals)] accepts these [pvals]: not empty,
    no negative entry, sum 1. *)
Definition valid_pvals (p : list Q) : bool :=
  match p with
  | [] => false
  | _ :: _ => forallb (Qle_bool 0) p && Qeq_bool (qsum p) 1
  end.

(** What numpy documents for [multinomial] on [n >= 0] and valid [pvals]:
    one count per entry of [pvals], none negative, summing to [n]. *)
Definition numpy_contract (rng : Type)
  (multinomial : Z -> list Q -> rng -> list Z * rng) : Prop :=
  forall n p s, 0 <= n -> valid_pvals p = true ->
    List.length (fst (multinomial n p s)) = List.length p
    /\ Forall (fun c => 0 <= c) (fst (multinomial n p s))
    /\ zsum (fst (multinomial n p s)) = n.

(** All the records of one (date, board) cell: a count of at least one,
    the cell's date and the cell's board. *)
Definition in_cell (d : timestamp) (hb : string) (r : record) : Prop :=
  1 <= presentations r /\ date r = d /\ health_board r = hb.

Section Logic.

Variable rng : Type.
Variable E : Prop.

Lemma wpe_ret (A : Type) (a : A) (post : A -> rng -> Prop) (s : rng) :
  post a s -> wpe E (ret a) post s.
Proof. intro H; exact H. Qed.

Lemma wpe_bind (A B : Type) (m : M rng A) (k : A -> M rng B)
  (post : B -> rng -> Prop) (s : rng) :
  wpe E m (fun a s' => wpe E (k a) post s') s -> wpe E (bind m k) post s.
Proof.
  unfold wpe, bind.
  destruct (m s) as [[a s'] | e]; auto.
Qed.

Lemma wpe_draw (A : Type) (f : rng -> A * rng) (post : A -> rng -> Prop)
  (s : rng) :
  post (fst (f s)) (snd (f s)) -> wpe E (draw f) post s.
Proof.
  unfold wpe, draw.
  destruct (f s); auto.
Qed.

Lemma wpe_lift (A : Type) (r : result A) (post : A -> rng -> Prop)
  (s : rng) :
  match r with Ok a => post a s | Raise _ => E end ->
  wpe E (lift r) post s.
Proof.
  unfold wpe, lift.
  destruct r; auto.
Qed.

Lemma wpe_index (l : list Z) (i : nat) (post : Z -> rng -> Prop) (s : rng) :
  match nth_error l i with Some x => post x s | None => E end ->
  wpe E (index l i) post s.
Proof.
  unfold wpe, index.
  destruct (nth_error l i); auto.
Qed.

Lemma wpe_mono (A : Type) (m : M rng A) (post post' : A -> rng -> Prop)
  (s : rng) :
  (forall a s', post a s' -> post' a s') ->
  wpe E m post s -> wpe E m post' s.
Proof.
  unfold wpe.
  destruct (m s) as [[a s'] | e]; auto.
Qed.

(** Loop rule: the invariant is indexed by the elements already
    processed. *)
Lemma wpe_for_each (A S : Type) (body : S -> A -> M rng S)
  (Inv : list A -> S -> rng -> Prop) (todo : list A) :
  forall (done : list A) (acc : S) (s : rng),
    (forall done' x acc' s', In x todo -> Inv done' acc' s' ->
       wpe E (body acc' x) (Inv (done' ++ [x])) s') ->
    Inv done acc s ->
    wpe E (for_each todo body acc) (Inv (done ++ todo)) s.
Proof.
  induction todo as [| x rest IH]; intros done acc s Hstep Hinv.
  - simpl. rewrite app_nil_r. apply wpe_ret. exact Hinv.
  - simpl. apply wpe_bind.
    eapply wpe_mono; [| apply (Hstep done x acc s); [left; reflexivity | exact Hinv]].
    intros acc' s' Hinv'.
    replace (done ++ x :: rest) with ((done ++ [x]) ++ rest)
      by (rewrite <- app_assoc; reflexivity).
    apply IH; [| exact Hinv'].
    intros done' y acc'' s'' Hy. apply Hstep. right; exact Hy.
Qed.

End Logic.

(* ------------------------------------------------------------------ *)
(** ** Sums and lists *)

Lemma zsum_app (a b : list Z) : zsum (a ++ b) = zsum a + zsum b.
Proof.
  induction a as [| x a IH]; simpl; [reflexivity | rewrite IH; lia].
Qed.

Lemma total_app (a b : list record) : total (a ++ b) = total a + total b.
Proof. unfold total. rewrite map_app. apply zsum_app. Qed.


Lemma skipn_nth_error (l : list Z) :
  forall (k : nat) (c : Z),
    nth_error l k = Some c -> skipn k l = c :: skipn (S k) l.
Proof.
  induction l as [| x l IH]; intros [| k] c H; simpl in *; try discriminate.
  - injection H as ->. reflexivity.
  - apply IH. exact H.
Qed.

Lemma positive_sum_nonneg (l : list Z) :
  Forall (fun c => 0 <= c) l -> positive_sum l = zsum l.
Proof.
  unfold positive_sum.
  induction 1 as [| x l Hx _ IH]; simpl; [reflexivity |].
  rewrite IH. lia.
Qed.

Lemma in_date_range (a b d : timestamp) :
  In d (date_range a b) -> a <= d <= b.
Proof.
  unfold date_range. intro H.
  apply in_map_iff in H. destruct H as [i [<- Hi]].
  apply in_seq in Hi. lia.
Qed.

Lemma date_range_empty (a b : timestamp) : b < a -> date_range a b = [].
Proof.
  intro H. unfold date_range.
  replace (Z.to_nat (b - a + 1)) with O by lia. reflexivity.
Qed.

Lemma dt_dayofweek_range (d : timestamp) : 0 <= dt_dayofweek d < 7.
Proof. unfold dt_dayofweek. apply Z.mod_pos_bound. lia. Qed.

(** The dict of day factors has an entry for every day of the week. *)
Lemma day_factor_defined (k : Z) :
  0 <= k < 7 -> exists q, dict_lookup Z.eqb day_factors k = Some q.
Proof.
  intro H.
  assert (Hk : k = 0 \/ k = 1 \/ k = 2 \/ k = 3 \/ k = 4 \/ k = 5 \/ k = 6)
    by lia.
  destruct Hk as [-> | [-> | [-> | [-> | [-> | [-> | ->]]]]]];
    simpl; eexists; reflexivity.
Qed.

(* ------------------------------------------------------------------ *)
(** ** The loop over the buckets of one draw *)

Section ForPositive.

Variable rng : Type.
Variable E : Prop.
Variable A : Type.

(** [Rel c out]: the chunk [out] is what a bucket of [c] events may
    append.  It has to be compatible with concatenation. *)
Variable Rel : Z -> list record -> Prop.
Hypothesis Rel_nil : Rel 0 [].
Hypothesis Rel_app :
  forall a b o1 o2, Rel a o1 -> Rel b o2 -> Rel (a + b) (o1 ++ o2).

Variable dist : list Z.
Variable inner : A -> Z -> list record -> M rng (list record).

Lemma for_positive_from (labels : list A) :
  forall (k : nat) (data : list record) (s : rng),
    (E \/ (k + List.length labels <= List.length dist)%nat) ->
    (forall x c data' s', In x labels -> 0 < c ->
       wpe E (inner x c data') (appended data' (Rel c)) s') ->
    wpe E
      (for_each (combine (seq k (List.length labels)) labels)
         (fun data '(idx, x) =>
            c <- index dist idx ;;
            if 0 <? c then inner x c data else ret data)
         data)
      (appended data
         (Rel (positive_sum (firstn (List.length labels) (skipn k dist)))))
      s.
Proof.
  induction labels as [| x labels IH]; intros k data s Hlen Hinner.
  - simpl. apply wpe_ret. exists []. rewrite app_nil_r. split; [reflexivity |].
    exact Rel_nil.
  - simpl. apply wpe_bind. apply wpe_bind. apply wpe_index.
    destruct (nth_error dist k) as [c |] eqn:Hk.
    + rewrite (skipn_nth_error _ _ Hk). simpl firstn.
      assert (Hlen' : E \/ (S k + List.length labels <= List.length dist)%nat).
      { destruct Hlen as [He | Hl]; [left; exact He | right; simpl in Hl; lia]. }
      assert (Hinner' :
        forall y c' data' s', In y labels -> 0 < c' ->
          wpe E (inner y c' data') (appended data' (Rel c')) s').
      { intros y c' data' s' Hy. apply Hinner. right; exact Hy. }
      destruct (0 <? c) eqn:Hc.
      * apply Z.ltb_lt in Hc.
        eapply wpe_mono; [| apply (Hinner x c data s); [left; reflexivity | exact Hc]].
        intros data1 s1 [out1 [-> H1]].
        eapply wpe_mono; [| apply (IH (S k) (data ++ out1) s1 Hlen' Hinner')].
        intros data2 s2 [out2 [-> H2]].
        exists (out1 ++ out2). split; [rewrite app_assoc; reflexivity |].
        unfold positive_sum. simpl.
        replace (Z.max 0 c) with c by lia.
        apply Rel_app; [exact H1 | exact H2].
      * apply Z.ltb_ge in Hc.
        apply wpe_ret.
        eapply wpe_mono; [| apply (IH (S k) data s Hlen' Hinner')].
        intros data2 s2 [out2 [-> H2]].
        exists out2. split; [reflexivity |].
        unfold positive_sum. simpl.
        replace (Z.max 0 c) with 0 by lia.
        change out2 with ([] ++ out2).
        apply Rel_app; [exact Rel_nil | exact H2].
    + destruct Hlen as [He | Hl]; [exact He |].
      apply nth_error_None in Hk. simpl in Hl. lia.
Qed.

Lemma for_positive_spec (labels : list A) (data : list record) (s : rng) :
  (E \/ (List.length labels <= List.length dist)%nat) ->
  (forall x c data' s', In x labels -> 0 < c ->
     wpe E (inner x c data') (appended data' (Rel c)) s') ->
  wpe E (for_positive labels dist inner data)
    (appended data
       (Rel (positive_sum (firstn (List.length labels) dist))))
    s.
Proof.
  intros Hlen Hinner.
  unfold for_positive, enumerate.
  apply (for_positive_from labels 0 data s); [| exact Hinner].
  destruct Hlen as [He | Hl]; [left; exact He | right; simpl; exact Hl].
Qed.

End ForPositive.

(* ------------------------------------------------------------------ *)
(** ** The levels of the disaggregation *)

(** What a level appends for a cell of [n] events: records of that cell,
    and, when the sampler keeps numpy's contract, records that total
    [n]. *)
Definition cell_chunk (contract : Prop) (d : timestamp) (hb : string)
  (n : Z) (out : list record) : Prop :=
  Forall (in_cell d hb) out /\ (contract -> total out = n).

Lemma cell_chunk_nil (contract : Prop) (d : timestamp) (hb : string) :
  cell_chunk contract d hb 0 [].
Proof. split; [constructor | intros _; reflexivity]. Qed.

Lemma cell_chunk_app (contract : Prop) (d : timestamp) (hb : string)
  (a b : Z) (o1 o2 : list record) :
  cell_chunk contract d hb a o1 -> cell_chunk contract d hb b o2 ->
  cell_chunk contract d hb (a + b) (o1 ++ o2).
Proof.
  intros [F1 T1] [F2 T2]. split.
  - apply Forall_app. split; assumption.
  - intro C. rewrite total_app, (T1 C), (T2 C). reflexivity.
Qed.




Section Levels.

Variable rng : Type.
Variable np_random_poisson : R -> rng -> Z * rng.
Variable np_random_multinomial : Z -> list Q -> rng -> list Z * rng.

Variable E : Prop.
Hypothesis raise_or_contract : E \/ numpy_contract np_random_multinomial.

Local Abbreviation contract := (numpy_contract np_random_multinomial).
Local Abbreviation chunk :=
  (cell_chunk (numpy_contract np_random_multinomial)).

(** Under the contract a draw has a count for every label and the loop
    over it accounts for the whole of [n]. *)
Lemma drawn_all (n : Z) (w : list Q) (s : rng) (k : nat) :
  contract -> 0 <= n -> valid_pvals w = true -> List.length w = k ->
  positive_sum (firstn k (fst (np_random_multinomial n w s))) = n.
Proof.
  intros C Hn Hw Hk.
  destruct (C n w s Hn Hw) as [Hlen [Hpos Hsum]].
  rewrite firstn_all2 by lia.
  rewrite positive_sum_nonneg by exact Hpos.
  exact Hsum.
Qed.

Lemma drawn_length (n : Z) (w : list Q) (s : rng) (k : nat) :
  0 <= n -> valid_pvals w = true -> List.length w = k ->
  E \/ (k <= List.length (fst (np_random_multinomial n w s)))%nat.
Proof.
  intros Hn Hw Hk.
  destruct raise_or_contract as [He | C]; [left; exact He | right].
  destruct (C n w s Hn Hw) as [Hlen _]. lia.
Qed.

(** The shared step: a draw over [w] followed by the loop over the
    labels. *)
Lemma split_spec (A : Type) (labels : list A) (w : list Q)
  (inner : A -> Z -> list record -> M rng (list record))
  (d : timestamp) (hb : string) (n : Z) (data : list record) (s : rng) :
  0 <= n -> valid_pvals w = true -> List.length w = List.length labels ->
  (forall x c data' s', In x labels -> 0 < c ->
     wpe E (inner x c data') (appended data' (chunk d hb c)) s') ->
  wpe E
    (dist <- draw (np_random_multinomial n w) ;;
     for_positive labels dist inner data)
    (appended data (chunk d hb n)) s.
Proof.
  intros Hn Hw Hlen Hinner.
  apply wpe_bind. apply wpe_draw.
  eapply wpe_mono;
    [| apply (@for_positive_spec rng E A (chunk d hb)
                (@cell_chunk_nil _ d hb) (@cell_chunk_app _ d hb)
                (fst (np_random_multinomial n w s)) inner labels data
                (snd (np_random_multinomial n w s)));
       [apply drawn_length; assumption | exact Hinner]].
  intros data' s' [out [-> [HF HT]]].
  exists out. split; [reflexivity |]. split; [exact HF |].
  intro C. rewrite (HT C). apply drawn_all; assumption.
Qed.

Lemma split_types_spec (d : timestamp) (hb age : string) (simd n : Z)
  (data : list record) (s : rng) :
  0 < n ->
  wpe E (split_types np_random_multinomial d hb age simd n data)
    (appended data (chunk d hb n)) s.
Proof.
  intro Hn. unfold split_types.
  apply split_spec; [lia | reflexivity | reflexivity |].
  intros pres_type c data' s' _ Hc.
  apply wpe_ret. exists [mk_record d hb age simd pres_type c].
  split; [reflexivity |]. split.
  - constructor; [| constructor].
    unfold in_cell; simpl. repeat split; [lia].
  - intros _. unfold total; simpl. lia.
Qed.

Lemma split_simd_spec (d : timestamp) (hb age : string) (n : Z)
  (data : list record) (s : rng) :
  0 < n ->
  wpe E (split_simd np_random_multinomial d hb age n data)
    (appended data (chunk d hb n)) s.
Proof.
  intro Hn. unfold split_simd.
  apply split_spec; [lia | reflexivity | reflexivity |].
  intros simd c data' s' _ Hc. apply split_types_spec. exact Hc.
Qed.

Lemma split_ages_spec (d : timestamp) (hb : string) (n : Z)
  (data : list record) (s : rng) :
  0 <= n ->
  wpe E (split_ages np_random_multinomial d hb n data)
    (appended data (chunk d hb n)) s.
Proof.
  intro Hn. unfold split_ages.
  apply split_spec; [lia | reflexivity | reflexivity |].
  intros age c data' s' _ Hc. apply split_simd_spec. exact Hc.
Qed.

(** One day: the expected count is defined, and the records appended are
    those of the day's cell, for the total that was drawn. *)
Lemma day_body_spec (base : Q) (hb : string) (data : list record)
  (d : timestamp) (s : rng) :
  exists lam,
    expected_presentations base (dt_dayofweek d) (dt_month d) (dt_year d)
    = Ok lam
    /\ wpe E (day_body np_random_poisson np_random_multinomial base hb data d)
         (appended data
            (chunk d hb (Z.max 0 (fst (np_random_poisson lam s))))) s.
Proof.
  destruct (day_factor_defined (dt_dayofweek_range d)) as [q Hq].
  unfold expected_presentations, day_body. rewrite Hq.
  eexists. split; [reflexivity |].
  unfold expected_presentations. rewrite Hq.
  apply wpe_bind. apply wpe_lift.
  apply wpe_bind. apply wpe_draw.
  apply split_ages_spec. lia.
Qed.

(** The whole range: every record has a positive count, a date of the
    range and the board of the call. *)
Lemma generate_spec (start_date end_date : timestamp) (hb : string)
  (s : rng) :
  wpe E
    (generate_time_series_data np_random_poisson np_random_multinomial
       start_date end_date hb)
    (fun data _ =>
       Forall (fun r => 1 <= presentations r
                        /\ start_date <= date r <= end_date
                        /\ health_board r = hb) data) s.
Proof.
  unfold generate_time_series_data.
  eapply wpe_mono;
    [| apply (@wpe_for_each rng E timestamp (list record)
                (day_body np_random_poisson np_random_multinomial
                   (base_demand hb) hb)
                (fun _ data _ =>
                   Forall (fun r => 1 <= presentations r
                                    /\ start_date <= date r <= end_date
                                    /\ health_board r = hb) data)
                (date_range start_date end_date) [] [] s)].
  - intros data s' H. exact H.
  - intros done d acc s' Hd Hacc.
    destruct (day_body_spec (base_demand hb) hb acc d s') as [lam [_ Hday]].
    eapply wpe_mono; [| exact Hday].
    intros data' s'' [out [-> [HF _]]].
    apply Forall_app. split; [exact Hacc |].
    apply in_date_range in Hd.
    eapply Forall_impl; [| exact HF].
    intros r [Hp [Hdate Hhb]]. rewrite Hdate. auto.
  - constructor.
Qed.

End Levels.

Lemma wpe_total (rng A : Type) (m : M rng A) (post : A -> rng -> Prop)
  (s : rng) (H : wpe False m post s) :
  exists a s', m s = Ok (a, s') /\ post a s'.
Proof.
  unfold wpe in H. destruct (m s) as [[a s'] | e]; [| destruct H].
  exists a, s'. split; [reflexivity | exact H].
Qed.
Arguments wpe_total {rng A m post s} H.

Lemma wpe_partial (rng A : Type) (m : M rng A) (post : A -> rng -> Prop)
  (s : rng) (a : A) (s' : rng)
  (H : wpe True m post s) (Hrun : m s = Ok (a, s')) :
  post a s'.
Proof. unfold wpe in H. rewrite Hrun in H. exact H. Qed.
Arguments wpe_partial {rng A m post s a s'} H Hrun.

(* ------------------------------------------------------------------ *)
(** ** The concrete samplers keep numpy's contract *)

Lemma bump_length (l : list Z) :
  forall i, List.length (Toy.bump i l) = List.length l.
Proof.
  induction l as [| x l IH]; intros [| i]; simpl; try reflexivity.
  rewrite IH. reflexivity.
Qed.

Lemma bump_nonneg (l : list Z) :
  forall i, Forall (fun c => 0 <= c) l ->
            Forall (fun c => 0 <= c) (Toy.bump i l).
Proof.
  induction l as [| x l IH]; intros [| i] H; simpl; try exact H;
    inversion H; subst; constructor; try lia; auto.
Qed.

Lemma bump_sum (l : list Z) :
  forall i, (i < List.length l)%nat -> zsum (Toy.bump i l) = zsum l + 1.
Proof.
  induction l as [| x l IH]; intros [| i] H; simpl in *; try lia.
  rewrite IH by lia. lia.
Qed.

Lemma scatter_spec (k : nat) :
  forall (acc : list Z) (s : Toy.rng),
    acc <> [] ->
    Forall (fun c => 0 <= c) acc ->
    let out := fst (Toy.scatter k (Z.of_nat (List.length acc)) acc s) in
    List.length out = List.length acc
    /\ Forall (fun c => 0 <= c) out
    /\ zsum out = zsum acc + Z.of_nat k.
Proof.
  induction k as [| k IH]; intros acc s Hne Hpos; simpl.
  - repeat split; [exact Hpos | lia].
  - set (i := Z.to_nat ((s / 65536) mod Z.of_nat (List.length acc))).
    assert (Hlen : (0 < List.length acc)%nat)
      by (destruct acc; [contradiction | simpl; lia]).
    assert (Hi : (i < List.length acc)%nat).
    { unfold i.
      pose proof (Z.mod_pos_bound (s / 65536) (Z.of_nat (List.length acc))).
      lia. }
    assert (Hne' : Toy.bump i acc <> []).
    { intro Heq. pose proof (bump_length acc i) as Hl.
      rewrite Heq in Hl. simpl in Hl. lia. }
    pose proof (IH (Toy.bump i acc) (Toy.lcg s) Hne'
                  (bump_nonneg i Hpos)) as H.
    rewrite bump_length in H. simpl in H.
    destruct H as [H1 [H2 H3]].
    repeat split; [exact H1 | exact H2 |].
    rewrite H3, bump_sum by exact Hi. lia.
Qed.

Lemma zsum_repeat_zero (n : nat) : zsum (repeat 0 n) = 0.
Proof. induction n as [| n IH]; simpl; [reflexivity | exact IH]. Qed.

Lemma toy_contract : numpy_contract Toy.multinomial.
Proof.
  intros n p s Hn Hp. unfold Toy.multinomial.
  assert (Hne : repeat 0 (List.length p) <> []).
  { destruct p; [discriminate | simpl; discriminate]. }
  assert (Hpos : Forall (fun c => 0 <= c) (repeat 0 (List.length p))).
  { apply Forall_forall. intros x Hx. apply repeat_spec in Hx. lia. }
  pose proof (scatter_spec (Z.to_nat n) s Hne Hpos) as H.
  rewrite repeat_length in H. simpl in H.
  destruct H as [H1 [H2 H3]].
  repeat split; [exact H1 | exact H2 |].
  rewrite H3, zsum_repeat_zero. lia.
Qed.

(** The first week of 2020, for the runs on the concrete samplers. *)
Definition week_start : timestamp := days_from_civil 2020 1 1.
Definition week_end : timestamp := days_from_civil 2020 1 7.

Definition toy_week_data : list record :=
  Eval vm_compute in
    match Toy.generate week_start week_end "NHS Fife" 1 with
    | Ok (data, _) => data
    | Raise _ => []
    end.

Definition toy_week_state : Toy.rng :=
  Eval vm_compute in
    match Toy.generate week_start week_end "NHS Fife" 1 with
    | Ok (_, s) => s
    | Raise _ => 0
    end.

Lemma toy_week_run :
  Toy.generate week_start week_end "NHS Fife" 1
  = Ok (toy_week_data, toy_week_state).
Proof. vm_compute. reflexivity. Qed.

(* ------------------------------------------------------------------ *)
(** ** Properties of [generate_time_series_data] *)

(** C5. Every record of the frame that [generate_time_series_data]
    returns has [presentations >= 1]: a leaf with a zero count is never
    appended.  This holds for any sampler. *)
Theorem emitted_counts_positive (rng : Type)
  (np_random_poisson : R -> rng -> Z * rng)
  (np_random_multinomial : Z -> list Q -> rng -> list Z * rng)
  (start_date end_date : timestamp) (hb : string) (s : rng)
  (data : list record) (s' : rng) :
  generate_time_series_data np_random_poisson np_random_multinomial
    start_date end_date hb s = Ok (data, s') ->
  forall r, In r data -> 1 <= presentations r.
Proof.
  intros Hrun r Hin.
  pose proof (wpe_partial
                (generate_spec np_random_poisson (E := True)
                   (np_random_multinomial := np_random_multinomial)
                   (or_introl I) start_date end_date hb s) Hrun) as H.
  rewrite Forall_forall in H. apply (H r Hin).
Qed.

Lemma emitted_counts_positive_witness :
  Toy.generate week_start week_end "NHS Fife" 1
  = Ok (toy_week_data, toy_week_state)
  /\ Forall (fun r => 1 <= presentations r) toy_week_data.
Proof.
  split; [exact toy_week_run |].
  apply Forall_forall. intros r Hin.
  exact (emitted_counts_positive Toy.poisson Toy.multinomial
           week_start week_end "NHS Fife" 1 toy_week_run r Hin).
Defined.

(** C9. Every record of the frame returned for [start_date], [end_date]
    and [health_board] has its date in the closed range
    [start_date .. end_date] and its board equal to the argument.  The
    range may even be empty: then there is no record. *)
Theorem emitted_within_range_and_board (rng : Type)
  (np_random_poisson : R -> rng -> Z * rng)
  (np_random_multinomial : Z -> list Q -> rng -> list Z * rng)
  (start_date end_date : timestamp) (hb : string) (s : rng)
  (data : list record) (s' : rng) :
  generate_time_series_data np_random_poisson np_random_multinomial
    start_date end_date hb s = Ok (data, s') ->
  forall r, In r data ->
    start_date <= date r <= end_date /\ health_board r = hb.
Proof.
  intros Hrun r Hin.
  pose proof (wpe_partial
                (generate_spec np_random_poisson (E := True)
                   (np_random_multinomial := np_random_multinomial)
                   (or_introl I) start_date end_date hb s) Hrun) as H.
  rewrite Forall_forall in H.
  destruct (H r Hin) as [_ [Hd Hb]]. split; assumption.
Qed.

Lemma emitted_within_range_and_board_witness :
  Toy.generate week_start week_end "NHS Fife" 1
  = Ok (toy_week_data, toy_week_state)
  /\ Forall (fun r => week_start <= date r <= week_end
                      /\ health_board r = "NHS Fife") toy_week_data.
Proof.
  split; [exact toy_week_run |].
  apply Forall_forall. intros r Hin.
  exact (emitted_within_range_and_board Toy.poisson Toy.multinomial
           week_start week_end "NHS Fife" 1 toy_week_run r Hin).
Defined.



(* ------------------------------------------------------------------ *)
(** ** The weight vectors *)

(** The binary64 rendering agrees with the literals of the source. *)
Example Q2F_literals :
  map Q2F simd_weights = [0.35; 0.25; 0.20; 0.12; 0.08]%float.
Proof. vm_compute. reflexivity. Qed.

(** C8. The age weights (8 entries), the quintile weights (5 entries) and
    the type weights (8 entries) are non-negative and each sums to 1
    within 1e-9: exactly 1 as decimals, and within the tolerance when
    added left to right in binary64.  The quintile weights decrease
    strictly from quintile 1 to quintile 5. *)
Theorem weight_vectors_normalised :
  (List.length age_weights = 8%nat
   /\ Forall (fun w => (0 <= w)%Q) age_weights
   /\ (Qabs (qsum age_weights - 1) <= 1e-9)%Q
   /\ PrimFloat.leb (PrimFloat.abs (fsum (map Q2F age_weights) - 1)) 1e-9
      = true)
  /\ (List.length simd_weights = 5%nat
      /\ Forall (fun w => (0 <= w)%Q) simd_weights
      /\ (Qabs (qsum simd_weights - 1) <= 1e-9)%Q
      /\ PrimFloat.leb (PrimFloat.abs (fsum (map Q2F simd_weights) - 1)) 1e-9
         = true)
  /\ (List.length type_weights = 8%nat
      /\ Forall (fun w => (0 <= w)%Q) type_weights
      /\ (Qabs (qsum type_weights - 1) <= 1e-9)%Q
      /\ PrimFloat.leb (PrimFloat.abs (fsum (map Q2F type_weights) - 1)) 1e-9
         = true)
  /\ StronglySorted (fun a b => (b < a)%Q) simd_weights.
Proof.
  assert (Hnn : forall l, forallb (Qle_bool 0) l = true ->
                          Forall (fun w => (0 <= w)%Q) l).
  { intros l H. apply Forall_forall. intros w Hw.
    rewrite forallb_forall in H. apply Qle_bool_iff. apply H. exact Hw. }
  repeat split;
    try (apply Hnn; reflexivity);
    try (vm_compute; reflexivity);
    try (vm_compute; discriminate).
  repeat constructor.
Qed.

(* ------------------------------------------------------------------ *)
(** ** The expected count *)

Lemma seasonal_factor_bounds (m : Z) :
  (0.7 <= seasonal_factor m <= 1.3)%R.
Proof.
  unfold seasonal_factor.
  pose proof (SIN_bound (2 * PI * IZR (m - 1) / 12 + PI)). lra.
Qed.

(** The six months the seasonal claim compares. *)
Lemma seasonal_factor_values :
  seasonal_factor 1 = 1%R
  /\ seasonal_factor 2 = 0.85%R
  /\ seasonal_factor 3 = (1 - 0.15 * sqrt 3)%R
  /\ seasonal_factor 6 = 0.85%R
  /\ seasonal_factor 7 = 1%R
  /\ seasonal_factor 8 = 1.15%R.
Proof.
  unfold seasonal_factor. repeat split; rewrite neg_sin.
  - replace (2 * PI * IZR (1 - 1) / 12)%R with 0%R
      by (change (1 - 1) with 0; lra).
    rewrite sin_0. lra.
  - replace (2 * PI * IZR (2 - 1) / 12)%R with (PI / 6)%R
      by (change (2 - 1) with 1; lra).
    rewrite sin_PI6. lra.
  - replace (2 * PI * IZR (3 - 1) / 12)%R with (PI / 3)%R
      by (change (3 - 1) with 2; lra).
    rewrite sin_PI3. lra.
  - replace (2 * PI * IZR (6 - 1) / 12)%R with (PI - PI / 6)%R
      by (change (6 - 1) with 5; lra).
    rewrite sin_PI_x, sin_PI6. lra.
  - replace (2 * PI * IZR (7 - 1) / 12)%R with PI
      by (change (7 - 1) with 6; lra).
    rewrite sin_PI. lra.
  - replace (2 * PI * IZR (8 - 1) / 12)%R with (PI / 6 + PI)%R
      by (change (8 - 1) with 7; lra).
    rewrite neg_sin, sin_PI6. lra.
Qed.

Lemma Q2R_pos (q : Q) : (0 < q)%Q -> (0 < Q2R q)%R.
Proof.
  intro H. apply Qlt_Rlt in H.
  replace (Q2R 0) with 0%R in H by (unfold Q2R; simpl; lra).
  exact H.
Qed.

Lemma dict_lookup_in (K V : Type) (eqb : K -> K -> bool)
  (d : list (K * V)) (k : K) (v : V) :
  dict_lookup eqb d k = Some v -> In v (map snd d).
Proof.
  induction d as [| [k' v'] d IH]; simpl; [discriminate |].
  destruct (eqb k k').
  - intro H. injection H as ->. left; reflexivity.
  - intro H. right. apply IH. exact H.
Qed.

Lemma day_factor_positive (k : Z) (q : Q) :
  dict_lookup Z.eqb day_factors k = Some q -> (0 < Q2R q)%R.
Proof.
  intro H. apply Q2R_pos. apply dict_lookup_in in H.
  assert (All : Forall (fun q => (0 < q)%Q) (map snd day_factors))
    by (repeat constructor).
  rewrite Forall_forall in All. apply All. exact H.
Qed.

Lemma covid_factor_positive (y : Z) : (0 < Q2R (covid_factor y))%R.
Proof.
  apply Q2R_pos. unfold covid_factor.
  destruct ((2020 <=? y) && (y <=? 2021)); [reflexivity |].
  destruct (y =? 2022); reflexivity.
Qed.

(** Every board, listed or not, has a positive base demand. *)
Lemma base_demand_positive (hb : string) : (0 < Q2R (base_demand hb))%R.
Proof.
  unfold base_demand. rewrite Q2R_mult.
  apply Rmult_lt_0_compat; [apply Q2R_pos; reflexivity |].
  apply Q2R_pos. unfold dict_get.
  destruct (dict_lookup String.eqb board_multipliers hb) as [v |] eqn:H;
    [| reflexivity].
  apply dict_lookup_in in H.
  assert (All : Forall (fun q => (0 < q)%Q) (map snd board_multipliers))
    by (repeat constructor).
  rewrite Forall_forall in All. apply All. exact H.
Qed.

Lemma Q2R_year_trend (y : Z) :
  Q2R (year_trend y) = (1 + 0.05 * IZR (y - 2019))%R.
Proof.
  unfold year_trend. rewrite Q2R_plus, Q2R_mult.
  unfold Q2R, inject_Z. cbn [Qnum Qden]. lra.
Qed.

(** What [day_body] hands to the Poisson sampler and what it keeps of the
    draw: the expected count goes in as computed, the clamp at 0 is on
    the drawn integer. *)
Lemma day_body_draw (rng : Type)
  (np_random_poisson : R -> rng -> Z * rng)
  (np_random_multinomial : Z -> list Q -> rng -> list Z * rng)
  (base : Q) (hb : string) (data : list record) (d : timestamp) (s : rng)
  (lam : R) :
  expected_presentations base (dt_dayofweek d) (dt_month d) (dt_year d)
  = Ok lam ->
  day_body np_random_poisson np_random_multinomial base hb data d s
  = split_ages np_random_multinomial d hb
      (Z.max 0 (fst (np_random_poisson lam s))) data
      (snd (np_random_poisson lam s)).
Proof.
  intro H. unfold day_body, bind, lift, draw. rewrite H.
  destruct (np_random_poisson lam s); reflexivity.
Qed.

(** The expected count is a positive number times the year trend. *)
Lemma expected_presentations_sign (hb : string) (dow m y : Z) (lam : R) :
  expected_presentations (base_demand hb) dow m y = Ok lam ->
  exists K, (0 < K)%R /\ lam = (K * (1 + 0.05 * IZR (y - 2019)))%R.
Proof.
  unfold expected_presentations.
  destruct (dict_lookup Z.eqb day_factors dow) as [q |] eqn:Hq;
    [| discriminate].
  intro H. injection H as <-.
  exists (Q2R (base_demand hb) * seasonal_factor m * Q2R q
          * Q2R (covid_factor y))%R.
  split.
  - apply Rmult_lt_0_compat; [| apply covid_factor_positive].
    apply Rmult_lt_0_compat; [| apply (day_factor_positive _ Hq)].
    apply Rmult_lt_0_compat; [apply base_demand_positive |].
    pose proof (seasonal_factor_bounds m). lra.
  - rewrite Q2R_year_trend. reflexivity.
Qed.

Definition new_year_1990 : timestamp := days_from_civil 1990 1 1.

(** C7, as stated, fails: on 1990-01-01 the expected count for NHS Fife is
    negative, and [day_body] hands it to the Poisson sampler as it is. *)
Lemma expected_count_negative_in_1990 :
  exists lam,
    expected_presentations (base_demand "NHS Fife")
      (dt_dayofweek new_year_1990) (dt_month new_year_1990)
      (dt_year new_year_1990) = Ok lam
    /\ (lam < 0)%R
    /\ day_body Toy.poisson Toy.multinomial (base_demand "NHS Fife")
         "NHS Fife" [] new_year_1990 42
       = split_ages Toy.multinomial new_year_1990 "NHS Fife"
           (Z.max 0 (fst (Toy.poisson lam 42))) []
           (snd (Toy.poisson lam 42)).
Proof.
  eexists. split; [reflexivity |]. split.
  - match goal with
    | |- (?l < 0)%R =>
        destruct (@expected_presentations_sign "NHS Fife" 0 1 1990 l
                    eq_refl) as [K [HK ->]]
    end.
    change (1990 - 2019) with (-29). nra.
  - apply day_body_draw. reflexivity.
Qed.

(** C7, amended. For every day of the year 1999 or later, and so for
    every day of the generated range 2019-2024, the expected count is not
    negative, for every board.  No floor is applied to it: [day_body]
    passes it to the Poisson sampler as computed and clamps the drawn
    integer at 0. *)
Theorem expected_count_nonnegative_from_1999 (rng : Type)
  (np_random_poisson : R -> rng -> Z * rng)
  (np_random_multinomial : Z -> list Q -> rng -> list Z * rng)
  (hb : string) (data : list record) (d : timestamp) (s : rng) (lam : R) :
  1999 <= dt_year d ->
  expected_presentations (base_demand hb) (dt_dayofweek d) (dt_month d)
    (dt_year d) = Ok lam ->
  (0 <= lam)%R
  /\ day_body np_random_poisson np_random_multinomial (base_demand hb) hb
       data d s
     = split_ages np_random_multinomial d hb
         (Z.max 0 (fst (np_random_poisson lam s))) data
         (snd (np_random_poisson lam s)).
Proof.
  intros Hy H. split; [| apply day_body_draw; exact H].
  destruct (expected_presentations_sign _ _ _ _ H) as [K [HK ->]].
  assert (Ht : (IZR (-20) <= IZR (dt_year d - 2019))%R)
    by (apply IZR_le; lia).
  apply Rmult_le_pos; lra.
Qed.

Lemma expected_count_nonnegative_from_1999_witness :
  1999 <= dt_year week_start
  /\ exists lam,
       expected_presentations (base_demand "NHS Fife")
         (dt_dayofweek week_start) (dt_month week_start)
         (dt_year week_start) = Ok lam
       /\ (0 <= lam)%R.
Proof.
  assert (Hy : 1999 <= dt_year week_start) by (vm_compute; discriminate).
  split; [exact Hy |].
  eexists. split; [reflexivity |].
  exact (proj1 (expected_count_nonnegative_from_1999 Toy.poisson
                  Toy.multinomial "NHS Fife" [] week_start 1 Hy eq_refl)).
Defined.

(** C2 fails on the code, for every board, weekday and year after 1999:
    with board, weekday and year held fixed, the mean expected count of
    January to March is strictly below that of June to August.  The sine
    is shifted by [pi], which puts the trough in April and the peak in
    October. *)
Theorem winter_mean_below_summer_mean (hb : string) (dow y : Z) :
  0 <= dow < 7 -> 1999 < y ->
  exists l1 l2 l3 l6 l7 l8,
    expected_presentations (base_demand hb) dow 1 y = Ok l1
    /\ expected_presentations (base_demand hb) dow 2 y = Ok l2
    /\ expected_presentations (base_demand hb) dow 3 y = Ok l3
    /\ expected_presentations (base_demand hb) dow 6 y = Ok l6
    /\ expected_presentations (base_demand hb) dow 7 y = Ok l7
    /\ expected_presentations (base_demand hb) dow 8 y = Ok l8
    /\ ((l1 + l2 + l3) / 3 < (l6 + l7 + l8) / 3)%R.
Proof.
  intros Hdow Hy.
  destruct (day_factor_defined Hdow) as [q Hq].
  unfold expected_presentations. rewrite Hq.
  do 6 eexists. repeat (split; [reflexivity |]).
  destruct seasonal_factor_values as [-> [-> [-> [-> [-> ->]]]]].
  pose proof (base_demand_positive hb) as HB.
  pose proof (day_factor_positive _ Hq) as HD.
  pose proof (covid_factor_positive y) as HC.
  assert (HT : (0 < Q2R (year_trend y))%R).
  { rewrite Q2R_year_trend.
    assert (IZR (-19) <= IZR (y - 2019))%R by (apply IZR_le; lia). lra. }
  pose proof (sqrt_pos 3) as HS.
  set (B := Q2R (base_demand hb)) in *.
  set (D := Q2R q) in *.
  set (C := Q2R (covid_factor y)) in *.
  set (T := Q2R (year_trend y)) in *.
  clearbody B D C T.
  assert (HP : (0 < B * D * C * T)%R).
  { apply Rmult_lt_0_compat; [| exact HT].
    apply Rmult_lt_0_compat; [| exact HC].
    apply Rmult_lt_0_compat; assumption. }
  assert (HPS : (0 <= B * D * C * T * sqrt 3)%R)
    by (apply Rmult_le_pos; lra).
  nra.
Qed.

Lemma winter_mean_below_summer_mean_witness :
  exists l1 l2 l3 l6 l7 l8,
    expected_presentations (base_demand "NHS Fife") 0 1 2019 = Ok l1
    /\ expected_presentations (base_demand "NHS Fife") 0 2 2019 = Ok l2
    /\ expected_presentations (base_demand "NHS Fife") 0 3 2019 = Ok l3
    /\ expected_presentations (base_demand "NHS Fife") 0 6 2019 = Ok l6
    /\ expected_presentations (base_demand "NHS Fife") 0 7 2019 = Ok l7
    /\ expected_presentations (base_demand "NHS Fife") 0 8 2019 = Ok l8
    /\ ((l1 + l2 + l3) / 3 < (l6 + l7 + l8) / 3)%R.
Proof.
  apply (@winter_mean_below_summer_mean "NHS Fife" 0 2019); lia.
Defined.

(* ------------------------------------------------------------------ *)
(** ** The dates the generator can run on

    [np.random.poisson] accepts a mean that is not negative and not
    beyond what a 64-bit integer holds.  The trend factor is negative on
    every day before 1999, zero in 1999 and grows by 0.05 a year; the
    nanosecond timestamps of pandas end on 2262-04-11. *)

Definition first_valid_day : timestamp := days_from_civil 1999 1 1.
Definition last_valid_day : timestamp := days_from_civil 2262 4 11.

(** The year of a day number, bounded through the divisions of
    [civil_from_days]. *)
Ltac civil_year_bound H :=
  let Hmp := fresh "Hmp" in
  let Hm := fresh "Hm" in
  unfold dt_year, civil_from_days;
  match goal with
  | |- context [?z + 719468] =>
      set (z0 := z + 719468);
      set (era := z0 / 146097);
      set (doe := z0 - era * 146097);
      set (yoe := (doe - doe / 1460 + doe / 36524 - doe / 146096) / 365);
      set (doy := doe - (365 * yoe + yoe / 4 - yoe / 100));
      set (mp := (5 * doy + 2) / 153);
      cbv zeta; simpl fst;
      destruct (Z.ltb_spec mp 10) as [Hmp | Hmp];
      match goal with
      | |- context [?a <=? 2] => destruct (Z.leb_spec a 2) as [Hm | Hm]
      end;
      unfold mp, doy, yoe, doe, era, z0 in *; clear - H Hmp Hm;
      Z.to_euclidean_division_equations; lia
  end.

Lemma dt_year_from_1999 (d : timestamp) :
  first_valid_day <= d -> 1999 <= dt_year d.
Proof.
  change first_valid_day with 10592. intro H. civil_year_bound H.
Qed.

Lemma dt_year_before_1999 (d : timestamp) :
  d < first_valid_day -> dt_year d < 1999.
Proof.
  change first_valid_day with 10592. intro H. civil_year_bound H.
Qed.

Lemma dt_year_until_2262 (d : timestamp) :
  d <= last_valid_day -> dt_year d <= 2262.
Proof.
  change last_valid_day with 106751. intro H. civil_year_bound H.
Qed.

Lemma Q2R_bounds (lo hi q : Q) :
  (lo <= q)%Q -> (q <= hi)%Q -> (Q2R lo <= Q2R q <= Q2R hi)%R.
Proof. intros H1 H2. split; apply Qle_Rle; assumption. Qed.

Lemma base_demand_bounds (hb : string) :
  (7.5 <= Q2R (base_demand hb) <= 125)%R.
Proof.
  unfold base_demand. rewrite Q2R_mult.
  assert (H50 : Q2R 50 = 50%R) by (unfold Q2R; simpl; lra).
  assert (Hm : (0.15 <= Q2R (dict_get board_multipliers hb 1.0%Q) <= 2.5)%R).
  { assert (Hq : (0.15 <= dict_get board_multipliers hb 1.0)%Q
                 /\ (dict_get board_multipliers hb 1.0 <= 2.5)%Q).
    { unfold dict_get.
      destruct (dict_lookup String.eqb board_multipliers hb) as [v |] eqn:H.
      - apply dict_lookup_in in H.
        assert (All : Forall (fun q => (0.15 <= q)%Q /\ (q <= 2.5)%Q)
                        (map snd board_multipliers))
          by (repeat constructor; discriminate).
        rewrite Forall_forall in All. apply All. exact H.
      - split; discriminate. }
    destruct (Q2R_bounds (proj1 Hq) (proj2 Hq)) as [H1 H2].
    unfold Q2R in H1 at 1. unfold Q2R in H2 at 2. simpl in H1, H2. lra. }
  rewrite H50. lra.
Qed.

Lemma day_factor_bounds (k : Z) (q : Q) :
  dict_lookup Z.eqb day_factors k = Some q -> (0.85 <= Q2R q <= 1.3)%R.
Proof.
  intro H. apply dict_lookup_in in H.
  assert (All : Forall (fun q => (0.85 <= q)%Q /\ (q <= 1.3)%Q)
                  (map snd day_factors))
    by (repeat constructor; discriminate).
  rewrite Forall_forall in All. destruct (All q H) as [H1 H2].
  destruct (Q2R_bounds H1 H2) as [H3 H4].
  unfold Q2R in H3 at 1. unfold Q2R in H4 at 2. simpl in H3, H4. lra.
Qed.

Lemma product_bounds (a x b c y d : R) :
  (0 <= a <= x)%R -> (x <= b)%R -> (0 <= c <= y)%R -> (y <= d)%R ->
  (a * c <= x * y <= b * d)%R.
Proof.
  intros [Ha Hax] Hxb [Hc Hcy] Hyd. split.
  - apply Rmult_le_compat; assumption.
  - apply Rmult_le_compat; lra.
Qed.

Lemma covid_factor_bounds (y : Z) : (1 <= Q2R (covid_factor y) <= 1.4)%R.
Proof.
  unfold covid_factor.
  destruct ((2020 <=? y) && (y <=? 2021)); [unfold Q2R; simpl; lra |].
  destruct (y =? 2022); unfold Q2R; simpl; lra.
Qed.

Lemma year_trend_bounds (y : Z) :
  1999 <= y <= 2262 -> (0 <= Q2R (year_trend y) <= 13.15)%R.
Proof.
  intro Hy. rewrite Q2R_year_trend.
  assert (H1 : (IZR (-20) <= IZR (y - 2019))%R) by (apply IZR_le; lia).
  assert (H2 : (IZR (y - 2019) <= IZR 243)%R) by (apply IZR_le; lia).
  lra.
Qed.

(** On a day from 1999-01-01 to 2262-04-11 the mean handed to the Poisson
    sampler is one numpy accepts, for every board, listed or not. *)
Lemma poisson_argument_valid (hb : string) (d : timestamp) :
  first_valid_day <= d <= last_valid_day ->
  exists lam,
    expected_presentations (base_demand hb) (dt_dayofweek d) (dt_month d)
      (dt_year d) = Ok lam
    /\ (0 <= lam <= 4000)%R.
Proof.
  intros [Hlo Hhi].
  destruct (day_factor_defined (dt_dayofweek_range d)) as [q Hq].
  unfold expected_presentations. rewrite Hq.
  eexists. split; [reflexivity |].
  pose proof (base_demand_bounds hb) as HB.
  pose proof (seasonal_factor_bounds (dt_month d)) as HS.
  pose proof (day_factor_bounds _ Hq) as HD.
  pose proof (covid_factor_bounds (dt_year d)) as HC.
  pose proof (year_trend_bounds
                (conj (dt_year_from_1999 Hlo) (dt_year_until_2262 Hhi)))
    as HT.
  set (B := Q2R (base_demand hb)) in *.
  set (S := seasonal_factor (dt_month d)) in *.
  set (D := Q2R q) in *.
  set (C := Q2R (covid_factor (dt_year d))) in *.
  set (T := Q2R (year_trend (dt_year d))) in *.
  clearbody B S D C T.
  assert (H1 : (0 * 0 <= B * S <= 125 * 1.3)%R)
    by (apply product_bounds; lra).
  assert (H2 : (0 * 0 <= B * S * D <= 125 * 1.3 * 1.3)%R)
    by (apply product_bounds; lra).
  assert (H3 : (0 * 0 <= B * S * D * C <= 125 * 1.3 * 1.3 * 1.4)%R)
    by (apply product_bounds; lra).
  assert (H4 : (0 * 0 <= B * S * D * C * T
                <= 125 * 1.3 * 1.3 * 1.4 * 13.15)%R)
    by (apply product_bounds; lra).
  lra.
Qed.

(** On every earlier day the mean is negative, for every board. *)
Lemma poisson_argument_negative (hb : string) (d : timestamp) :
  d < first_valid_day ->
  exists lam,
    expected_presentations (base_demand hb) (dt_dayofweek d) (dt_month d)
      (dt_year d) = Ok lam
    /\ (lam < 0)%R.
Proof.
  intro Hd.
  destruct (day_factor_defined (dt_dayofweek_range d)) as [q Hq].
  assert (Hlam : exists lam,
             expected_presentations (base_demand hb) (dt_dayofweek d)
               (dt_month d) (dt_year d) = Ok lam)
    by (unfold expected_presentations; rewrite Hq; eexists; reflexivity).
  destruct Hlam as [lam Hlam]. exists lam. split; [exact Hlam |].
  destruct (expected_presentations_sign _ _ _ _ Hlam) as [K [HK ->]].
  pose proof (dt_year_before_1999 Hd) as Hy.
  assert (Ht : (IZR (dt_year d - 2019) <= IZR (-21))%R)
    by (apply IZR_le; lia).
  nra.
Qed.

(** The means of a whole range. *)
Lemma valid_range_means (hb : string) (start_date end_date : timestamp) :
  first_valid_day <= start_date -> end_date <= last_valid_day ->
  forall d, In d (date_range start_date end_date) ->
    exists lam,
      expected_presentations (base_demand hb) (dt_dayofweek d) (dt_month d)
        (dt_year d) = Ok lam
      /\ (0 <= lam <= 4000)%R.
Proof.
  intros Hlo Hhi d Hd. apply in_date_range in Hd.
  apply poisson_argument_valid. lia.
Qed.

(* ------------------------------------------------------------------ *)
(** ** Invalid configuration *)

Lemma dict_lookup_key (V : Type) (d : list (string * V)) (k : string)
  (v : V) :
  dict_lookup String.eqb d k = Some v -> In k (map fst d).
Proof.
  induction d as [| [k' v'] d IH]; simpl; [discriminate |].
  destruct (String.eqb_spec k k') as [-> | Hne].
  - intros _. left; reflexivity.
  - intro H. right. apply IH. exact H.
Qed.

(** The dict of multipliers has exactly the boards of [HEALTH_BOARDS] as
    keys, so any other identifier takes the default of [.get]. *)
Lemma unknown_board_default (hb : string) :
  ~ In hb HEALTH_BOARDS -> base_demand hb = (50 * 1.0)%Q.
Proof.
  intro Hnot. unfold base_demand, dict_get.
  destruct (dict_lookup String.eqb board_multipliers hb) as [v |] eqn:H;
    [| reflexivity].
  exfalso. apply Hnot. apply dict_lookup_key in H.
  simpl in H.
  repeat (destruct H as [<- | H]; [simpl; tauto |]).
  destruct H.
Qed.

Lemma narnia_unknown : ~ In "NHS Narnia" HEALTH_BOARDS.
Proof.
  simpl. intro H.
  repeat (destruct H as [H | H]; [discriminate H |]).
  exact H.
Qed.

Definition toy_narnia_data : list record :=
  Eval vm_compute in
    match Toy.generate week_start week_end "NHS Narnia" 1 with
    | Ok (data, _) => data
    | Raise _ => []
    end.

(** C1, as stated, fails: a board outside the enumeration is served like
    any other and yields records, and a reversed range yields the empty
    frame; neither raises. *)
Lemma invalid_configuration_accepted :
  (~ In "NHS Narnia" HEALTH_BOARDS
   /\ Toy.generate week_start week_end "NHS Narnia" 1
      = Ok (toy_narnia_data, toy_week_state)
   /\ List.length toy_narnia_data = 13%nat)
  /\ (week_start < week_end
      /\ Toy.generate week_end week_start "NHS Fife" 1 = Ok ([], 1)).
Proof.
  split; split.
  - exact narnia_unknown.
  - split; vm_compute; reflexivity.
  - vm_compute. reflexivity.
  - vm_compute. reflexivity.
Qed.

(** C1, amended. The generator has no configuration error.  For a board
    outside the enumeration and a range within 1999-01-01 .. 2262-04-11
    it takes the multiplier 1.0, a base demand of 50, hands the Poisson
    sampler a mean between 0 and 4000 on every day, and returns a frame
    whose records carry the identifier given; for an [end_date] before
    [start_date] it returns the empty frame and leaves the generator
    state untouched. *)
Theorem invalid_configuration_is_served (rng : Type)
  (np_random_poisson : R -> rng -> Z * rng)
  (np_random_multinomial : Z -> list Q -> rng -> list Z * rng) :
  numpy_contract np_random_multinomial ->
  (forall start_date end_date hb s,
     ~ In hb HEALTH_BOARDS ->
     first_valid_day <= start_date -> end_date <= last_valid_day ->
     base_demand hb = (50 * 1.0)%Q
     /\ (forall d, In d (date_range start_date end_date) ->
           exists lam,
             expected_presentations (base_demand hb) (dt_dayofweek d)
               (dt_month d) (dt_year d) = Ok lam
             /\ (0 <= lam <= 4000)%R)
     /\ exists data s',
          generate_time_series_data np_random_poisson np_random_multinomial
            start_date end_date hb s = Ok (data, s')
          /\ Forall (fun r => health_board r = hb) data)
  /\ (forall start_date end_date hb s,
        end_date < start_date ->
        generate_time_series_data np_random_poisson np_random_multinomial
          start_date end_date hb s = Ok ([], s)).
Proof.
  intro C. split.
  - intros start_date end_date hb s Hnot Hlo Hhi.
    split; [apply unknown_board_default; exact Hnot |].
    split; [apply valid_range_means; assumption |].
    destruct (wpe_total
                (generate_spec np_random_poisson (E := False) (or_intror C)
                   start_date end_date hb s)) as [data [s' [Hrun HF]]].
    exists data, s'. split; [exact Hrun |].
    eapply Forall_impl; [| exact HF].
    intros r [_ [_ H]]. exact H.
  - intros start_date end_date hb s Hlt.
    unfold generate_time_series_data.
    rewrite (date_range_empty Hlt). reflexivity.
Qed.

Lemma invalid_configuration_is_served_witness :
  numpy_contract Toy.multinomial
  /\ (~ In "NHS Narnia" HEALTH_BOARDS
      /\ first_valid_day <= week_start
      /\ week_end <= last_valid_day
      /\ base_demand "NHS Narnia" = (50 * 1.0)%Q
      /\ exists data s',
           Toy.generate week_start week_end "NHS Narnia" 1 = Ok (data, s')
           /\ Forall (fun r => health_board r = "NHS Narnia") data)
  /\ (week_start < week_end
      /\ Toy.generate week_end week_start "NHS Fife" 1 = Ok ([], 1)).
Proof.
  destruct (invalid_configuration_is_served Toy.poisson toy_contract)
    as [Hboard Hrange].
  assert (Hlo : first_valid_day <= week_start) by (vm_compute; discriminate).
  assert (Hhi : week_end <= last_valid_day) by (vm_compute; discriminate).
  assert (Hlt : week_start < week_end) by (vm_compute; reflexivity).
  split; [exact toy_contract |]. split.
  - destruct (Hboard week_start week_end "NHS Narnia" 1 narnia_unknown
                Hlo Hhi) as [Hbase [_ Hrun]].
    split; [exact narnia_unknown |]. split; [exact Hlo |].
    split; [exact Hhi |]. split; [exact Hbase | exact Hrun].
  - split; [exact Hlt |].
    exact (Hrange week_end week_start "NHS Fife" 1 Hlt).
Defined.

(* ------------------------------------------------------------------ *)
(** ** The complete dataset and the script *)

(** C10. In the table [generate_complete_dataset] returns, the column
    [day_of_week] of every row is the day of the week of the row's date
    (0 = Monday), and [is_weekend] is 1 exactly when that is 5 or 6
    (Saturday or Sunday) and 0 otherwise. *)
Theorem weekend_flag_matches_day_of_week (rng : Type)
  (np_random_poisson : R -> rng -> Z * rng)
  (np_random_multinomial : Z -> list Q -> rng -> list Z * rng)
  (sort_values : list record -> list record)
  (s : rng) (df : list row) (s' : rng) :
  generate_complete_dataset np_random_poisson np_random_multinomial
    sort_values s = Ok (df, s') ->
  forall r, In r df ->
    day_of_week r = dt_dayofweek (date r)
    /\ (is_weekend r = 1 <-> day_of_week r = 5 \/ day_of_week r = 6)
    /\ (is_weekend r = 0 <-> ~ (day_of_week r = 5 \/ day_of_week r = 6)).
Proof.
  unfold generate_complete_dataset, bind. intros Hrun r Hin.
  destruct (for_each HEALTH_BOARDS _ [] s) as [[all_data s1] | e];
    [| discriminate].
  destruct (List.concat all_data) as [| x rest]; [discriminate |].
  unfold ret in Hrun. injection Hrun as <- _.
  apply in_map_iff in Hin. destruct Hin as [x0 [<- _]].
  unfold attach_calendar; simpl.
  split; [reflexivity |].
  destruct (Z.eqb_spec (dt_dayofweek (date x0)) 5) as [-> | H5]; simpl.
  - split; split; intro H; lia.
  - destruct (Z.eqb_spec (dt_dayofweek (date x0)) 6) as [-> | H6]; simpl.
    + split; split; intro H; lia.
    + split; split; intro H; lia.
Qed.

(** *** A run of the complete dataset, followed by hand *)

Lemma for_each_cons_ok (rng A S : Type) (body : S -> A -> M rng S)
  (x : A) (rest : list A) (acc acc' : S) (s s' : rng) :
  body acc x s = Ok (acc', s') ->
  for_each (x :: rest) body acc s = for_each rest body acc' s'.
Proof. intro H. simpl. unfold bind. rewrite H. reflexivity. Qed.

Lemma date_range_cons (a b : timestamp) :
  a <= b -> date_range a b = a :: date_range (a + 1) b.
Proof.
  intro H. unfold date_range.
  replace (Z.to_nat (b - a + 1)) with (S (Z.to_nat (b - (a + 1) + 1)))
    by lia.
  simpl. f_equal; [lia |].
  rewrite <- seq_shift, map_map.
  apply map_ext. intro i. lia.
Qed.

Lemma date_range_length (a b : timestamp) :
  List.length (date_range a b) = Z.to_nat (b - a + 1).
Proof. unfold date_range. rewrite length_map, length_seq. reflexivity. Qed.

(** A draw other than the fifth: nothing is appended. *)
Lemma sparse_quiet_day (base : Q) (hb : string) (data : list record)
  (d : timestamp) (s : Z) :
  s <> 4 ->
  day_body Sparse.poisson Sparse.multinomial base hb data d s
  = Ok (data, s + 1).
Proof.
  intro Hs.
  destruct (day_factor_defined (dt_dayofweek_range d)) as [q Hq].
  unfold day_body, bind, lift, draw, expected_presentations.
  rewrite Hq. unfold Sparse.poisson.
  destruct (Z.eqb_spec s 4) as [He | _]; [contradiction |].
  reflexivity.
Qed.

(** The fifth draw: one record, for the first age group, quintile and
    presentation type. *)
Lemma sparse_loud_day (base : Q) (hb : string) (d : timestamp) :
  day_body Sparse.poisson Sparse.multinomial base hb [] d 4
  = Ok ([mk_record d hb "0-17" 1 "Self Harm" 1], 5).
Proof.
  destruct (day_factor_defined (dt_dayofweek_range d)) as [q Hq].
  unfold day_body, bind, lift, draw, expected_presentations.
  rewrite Hq. reflexivity.
Qed.

Lemma sparse_quiet_days (base : Q) (hb : string) (dates : list timestamp) :
  forall (data : list record) (s : Z),
    4 < s ->
    for_each dates (day_body Sparse.poisson Sparse.multinomial base hb)
      data s
    = Ok (data, s + Z.of_nat (List.length dates)).
Proof.
  induction dates as [| d dates IH]; intros data s Hs.
  - simpl. unfold ret. f_equal. f_equal. lia.
  - erewrite for_each_cons_ok by (apply sparse_quiet_day; lia).
    rewrite IH by lia. f_equal. f_equal. simpl List.length. lia.
Qed.

Definition first_day : timestamp := days_from_civil 2019 1 1.
Definition last_day : timestamp := days_from_civil 2024 10 31.

(** The record of the run: Saturday 2019-01-05. *)
Definition sparse_record (hb : string) : record :=
  mk_record (days_from_civil 2019 1 5) hb "0-17" 1 "Self Harm" 1.

Lemma sparse_first_board (hb : string) :
  generate_time_series_data Sparse.poisson Sparse.multinomial first_day
    last_day hb 0
  = Ok ([sparse_record hb], 2131).
Proof.
  unfold generate_time_series_data.
  change first_day with 17897. change last_day with 20027.
  rewrite (@date_range_cons 17897 20027) by lia.
  rewrite (@date_range_cons (17897 + 1) 20027) by lia.
  rewrite (@date_range_cons (17897 + 1 + 1) 20027) by lia.
  rewrite (@date_range_cons (17897 + 1 + 1 + 1) 20027) by lia.
  rewrite (@date_range_cons (17897 + 1 + 1 + 1 + 1) 20027) by lia.
  do 4 (erewrite for_each_cons_ok by (apply sparse_quiet_day; lia)).
  erewrite for_each_cons_ok by (apply sparse_loud_day).
  rewrite sparse_quiet_days by lia.
  rewrite date_range_length. reflexivity.
Qed.

Lemma sparse_later_board (hb : string) (s : Z) :
  4 < s ->
  generate_time_series_data Sparse.poisson Sparse.multinomial first_day
    last_day hb s
  = Ok ([], s + 2131).
Proof.
  intro Hs. unfold generate_time_series_data.
  rewrite sparse_quiet_days by exact Hs.
  rewrite date_range_length. reflexivity.
Qed.

Lemma sparse_later_boards (boards : list string) :
  forall (all_data : list (list record)) (s : Z),
    4 < s ->
    for_each boards
      (fun all_data board =>
         board_data <-
           generate_time_series_data Sparse.poisson Sparse.multinomial
             first_day last_day board ;;
         ret (all_data ++ [board_data]))
      all_data s
    = Ok (all_data ++ repeat [] (List.length boards),
          s + 2131 * Z.of_nat (List.length boards)).
Proof.
  induction boards as [| b boards IH]; intros all_data s Hs.
  - simpl. unfold ret. rewrite app_nil_r. f_equal. f_equal. lia.
  - simpl for_each. unfold bind at 1. unfold bind at 1.
    rewrite (sparse_later_board b Hs). unfold ret at 1.
    rewrite IH by lia. f_equal. f_equal.
    + rewrite <- app_assoc. reflexivity.
    + simpl List.length. lia.
Qed.

Lemma sparse_all_boards :
  for_each HEALTH_BOARDS
    (fun all_data board =>
       board_data <-
         generate_time_series_data Sparse.poisson Sparse.multinomial
           first_day last_day board ;;
       ret (all_data ++ [board_data]))
    [] 0
  = Ok ([[sparse_record "NHS Ayrshire and Arran"]] ++ repeat [] 13,
        2131 + 2131 * 13).
Proof.
  unfold HEALTH_BOARDS.
  erewrite for_each_cons_ok.
  - apply sparse_later_boards. lia.
  - unfold bind. rewrite sparse_first_board. reflexivity.
Qed.

Lemma sparse_complete_dataset :
  generate_complete_dataset Sparse.poisson Sparse.multinomial
    Toy.sort_values 0
  = Ok ([attach_calendar (sparse_record "NHS Ayrshire and Arran")], 29834).
Proof.
  unfold generate_complete_dataset. cbv zeta.
  change (days_from_civil 2019 1 1) with first_day.
  change (days_from_civil 2024 10 31) with last_day.
  unfold bind at 1. rewrite sparse_all_boards.
  reflexivity.
Qed.

Lemma weekend_flag_matches_day_of_week_witness :
  generate_complete_dataset Sparse.poisson Sparse.multinomial
    Toy.sort_values 0
  = Ok ([attach_calendar (sparse_record "NHS Ayrshire and Arran")], 29834)
  /\ is_weekend (attach_calendar (sparse_record "NHS Ayrshire and Arran"))
     = 1
  /\ day_of_week (attach_calendar (sparse_record "NHS Ayrshire and Arran"))
     = 5.
Proof.
  split; [exact sparse_complete_dataset |].
  destruct (weekend_flag_matches_day_of_week Sparse.poisson
              Sparse.multinomial Toy.sort_values 0 sparse_complete_dataset
              (attach_calendar (sparse_record "NHS Ayrshire and Arran"))
              (or_introl eq_refl)) as [Hdow [H1 _]].
  assert (H5 : day_of_week
                 (attach_calendar (sparse_record "NHS Ayrshire and Arran"))
               = 5) by reflexivity.
  split; [apply H1; left; exact H5 | exact H5].
Defined.

(* ------------------------------------------------------------------ *)
(** ** Grouped sums against re-aggregation *)

Section GroupByProps.

Variable K : Type.
Variable key_eqb : K -> K -> bool.
Variable key_leb : K -> K -> bool.
Hypothesis key_eqb_spec : forall a b, key_eqb a b = true <-> a = b.

(** What the groups hold for key [k]. *)
Definition sum_for (k : K) (groups : list (K * Z)) : Z :=
  zsum (map snd (filter (fun g => key_eqb k (fst g)) groups)).

Lemma key_eqb_refl (k : K) : key_eqb k k = true.
Proof. apply key_eqb_spec. reflexivity. Qed.

Lemma key_eqb_neq (a b : K) : key_eqb a b = false <-> a <> b.
Proof.
  split.
  - intros H Heq. apply key_eqb_spec in Heq. congruence.
  - intro H. destruct (key_eqb a b) eqn:E; [| reflexivity].
    apply key_eqb_spec in E. contradiction.
Qed.

Lemma sum_for_agg_add (k k' : K) (v : Z) (acc : list (K * Z)) :
  sum_for k (agg_add key_eqb k' v acc)
  = sum_for k acc + (if key_eqb k k' then v else 0).
Proof.
  unfold sum_for.
  induction acc as [| [k0 v0] acc IH]; simpl.
  - destruct (key_eqb k k'); simpl; lia.
  - destruct (key_eqb k' k0) eqn:E; simpl.
    + apply key_eqb_spec in E. subst k0.
      destruct (key_eqb k k'); simpl; lia.
    + destruct (key_eqb k k0) eqn:E0; simpl; rewrite IH; lia.
Qed.

Lemma keys_agg_add (k : K) (v : Z) (acc : list (K * Z)) (k' : K) :
  In k' (map fst (agg_add key_eqb k v acc))
  <-> k' = k \/ In k' (map fst acc).
Proof.
  induction acc as [| [k0 v0] acc IH]; simpl.
  - intuition.
  - destruct (key_eqb k k0) eqn:E; simpl.
    + apply key_eqb_spec in E. subst k0. intuition.
    + rewrite IH. intuition.
Qed.

Lemma nodup_agg_add (k : K) (v : Z) (acc : list (K * Z)) :
  NoDup (map fst acc) -> NoDup (map fst (agg_add key_eqb k v acc)).
Proof.
  induction acc as [| [k0 v0] acc IH]; simpl; intro H.
  - constructor; [intros [] | constructor].
  - inversion H as [| ? ? Hnotin Hrest]; subst.
    destruct (key_eqb k k0) eqn:E; simpl.
    + constructor; assumption.
    + constructor; [| apply IH; exact Hrest].
      rewrite keys_agg_add. intros [-> | Hin]; [| contradiction].
      rewrite key_eqb_refl in E. discriminate.
Qed.

(** With one group per key, the group of [k] holds [sum_for k]. *)
Lemma sum_for_nodup (k : K) (v : Z) (groups : list (K * Z)) :
  NoDup (map fst groups) -> In (k, v) groups -> sum_for k groups = v.
Proof.
  unfold sum_for.
  induction groups as [| [k0 v0] groups IH]; simpl; intros Hnd Hin;
    [contradiction |].
  inversion Hnd as [| ? ? Hnotin Hrest]; subst.
  destruct Hin as [Heq | Hin].
  - injection Heq as -> ->. rewrite key_eqb_refl. simpl.
    assert (Hnone : filter (fun g => key_eqb k (fst g)) groups = []).
    { clear IH Hnd Hrest.
      induction groups as [| [k1 v1] groups IHg]; simpl; [reflexivity |].
      destruct (key_eqb k k1) eqn:E.
      - apply key_eqb_spec in E. subst k1.
        exfalso. apply Hnotin. left; reflexivity.
      - apply IHg. intro H. apply Hnotin. right; exact H. }
    rewrite Hnone. simpl. lia.
  - destruct (key_eqb k k0) eqn:E.
    + apply key_eqb_spec in E. subst k0.
      exfalso. apply Hnotin. apply (in_map fst) in Hin. exact Hin.
    + apply IH; assumption.
Qed.

Variable key : row -> K.

(** Re-aggregation from the table, in the words of the specification: the
    sum of [presentations] over the rows whose key is [k]. *)
Definition reaggregate (k : K) (df : list row) : Z :=
  zsum (map (fun r : row => presentations r)
          (filter (fun r => key_eqb k (key r)) df)).

Lemma fold_agg_spec (df : list row) :
  forall acc,
    NoDup (map fst acc) ->
    let out :=
      fold_left (fun acc r => agg_add key_eqb (key r) (presentations r) acc)
        df acc in
    NoDup (map fst out)
    /\ (forall k, sum_for k out = sum_for k acc + reaggregate k df)
    /\ (forall k, In k (map fst out)
                  <-> In k (map fst acc) \/ In k (map key df)).
Proof.
  induction df as [| r df IH]; intros acc Hnd; simpl.
  - repeat split; [exact Hnd | unfold reaggregate; simpl; lia
                   | intuition | intuition].
  - destruct (IH (agg_add key_eqb (key r) (presentations r) acc)
                (nodup_agg_add (key r) (presentations r) acc Hnd))
      as [H1 [H2 H3]].
    split; [exact H1 |]. split.
    + intro k. rewrite H2, sum_for_agg_add. unfold reaggregate. simpl.
      destruct (key_eqb k (key r)); simpl; lia.
    + intro k. rewrite H3, keys_agg_add. intuition.
Qed.

Lemma insert_group_perm (g : K * Z) (l : list (K * Z)) :
  Permutation (insert_group key_leb g l) (g :: l).
Proof.
  induction l as [| h l IH]; simpl; [reflexivity |].
  destruct (key_leb (fst g) (fst h)); [reflexivity |].
  rewrite IH. apply perm_swap.
Qed.

Lemma sort_groups_perm (l : list (K * Z)) :
  Permutation (sort_groups key_leb l) l.
Proof.
  induction l as [| g l IH]; simpl; [reflexivity |].
  rewrite insert_group_perm. constructor. exact IH.
Qed.

(** The grouped sum against the re-aggregation. *)
Lemma groupby_sum_spec (df : list row) :
  NoDup (map fst (groupby_sum key_eqb key_leb key df))
  /\ (forall k v, In (k, v) (groupby_sum key_eqb key_leb key df) ->
                  v = reaggregate k df)
  /\ (forall r, In r df ->
        In (key r, reaggregate (key r) df)
           (groupby_sum key_eqb key_leb key df)).
Proof.
  unfold groupby_sum, group_sums.
  destruct (fold_agg_spec df [] (NoDup_nil _)) as [H1 [H2 H3]].
  set (groups := fold_left _ df []) in *.
  pose proof (sort_groups_perm groups) as HP.
  assert (Hnd : NoDup (map fst (sort_groups key_leb groups))).
  { eapply Permutation_NoDup; [| exact H1].
    apply Permutation_map. symmetry. exact HP. }
  split; [exact Hnd |]. split.
  - intros k v Hin.
    apply (Permutation_in _ HP) in Hin.
    rewrite <- (sum_for_nodup k v groups H1 Hin), H2. unfold sum_for. simpl. lia.
  - intros r Hin.
    assert (Hk : In (key r) (map fst groups)).
    { apply H3. right. apply in_map. exact Hin. }
    apply in_map_iff in Hk. destruct Hk as [[k v] [Hfst Hg]].
    simpl in Hfst. subst k.
    assert (Hv : v = reaggregate (key r) df).
    { rewrite <- (sum_for_nodup (key r) v groups H1 Hg), H2. unfold sum_for. simpl. lia. }
    rewrite <- Hv.
    apply (Permutation_in _ (Permutation_sym HP)). exact Hg.
Qed.

End GroupByProps.

Lemma daily_key_eqb_spec (a b : timestamp * string) :
  daily_key_eqb a b = true <-> a = b.
Proof.
  destruct a as [d1 h1], b as [d2 h2]. unfold daily_key_eqb. simpl.
  rewrite andb_true_iff, Z.eqb_eq, String.eqb_eq.
  split.
  - intros [-> ->]. reflexivity.
  - intro H. injection H as -> ->. split; reflexivity.
Qed.

(** Re-aggregation of one (date, board) cell from the full table: the sum
    of [presentations] over the rows with that date and that board. *)
Definition reaggregate_daily (df : list row) (d : timestamp) (hb : string)
  : Z :=
  zsum (map (fun r : row => presentations r)
          (filter (fun r : row =>
                     (date r =? d) && String.eqb (health_board r) hb) df)).

Lemma reaggregate_daily_eq (df : list row) (d : timestamp) (hb : string) :
  reaggregate daily_key_eqb daily_key (d, hb) df = reaggregate_daily df d hb.
Proof.
  unfold reaggregate, reaggregate_daily. f_equal. f_equal.
  apply filter_ext. intro r. unfold daily_key_eqb, daily_key. simpl.
  rewrite Z.eqb_sym, String.eqb_sym. reflexivity.
Qed.

(** C6. The daily summary is consistent with the full table it is built
    from: it has one row per (date, board), the total of each row is the
    sum of [presentations] over the rows of the full table with that date
    and board, and every (date, board) of the full table has its row. *)
Theorem daily_summary_round_trip (df : list row) :
  NoDup (map fst (daily_summary df))
  /\ (forall d hb v,
        In (d, hb, v) (daily_summary df) -> v = reaggregate_daily df d hb)
  /\ (forall r : row,
        In r df ->
        In (date r, health_board r,
            reaggregate_daily df (date r) (health_board r))
           (daily_summary df)).
Proof.
  destruct (@groupby_sum_spec _ daily_key_eqb daily_key_leb
              daily_key_eqb_spec daily_key df)
    as [H1 [H2 H3]].
  split; [exact H1 |]. split.
  - intros d hb v Hin. rewrite <- reaggregate_daily_eq.
    apply H2. exact Hin.
  - intros r Hin. rewrite <- reaggregate_daily_eq.
    apply (H3 r Hin).
Qed.

Definition toy_week_table : list row := map attach_calendar toy_week_data.

Lemma daily_summary_round_trip_witness :
  In (18263, "NHS Fife", 2) (daily_summary toy_week_table)
  /\ reaggregate_daily toy_week_table 18263 "NHS Fife" = 2.
Proof.
  assert (Hin : In (18263, "NHS Fife", 2) (daily_summary toy_week_table))
    by (vm_compute; left; reflexivity).
  split; [exact Hin |].
  symmetry.
  exact (proj1 (proj2 (daily_summary_round_trip toy_week_table))
           18263 "NHS Fife" 2 Hin).
Defined.

(** The week of the scenario: seven days requested, one summary row for
    each day that has records, each equal to its re-aggregation. *)
Example toy_week_daily_summary :
  daily_summary toy_week_table
  = [ (18263, "NHS Fife", 2); (18264, "NHS Fife", 3);
      (18265, "NHS Fife", 3); (18266, "NHS Fife", 1);
      (18267, "NHS Fife", 1); (18268, "NHS Fife", 3) ]
  /\ map (fun d => reaggregate_daily toy_week_table d "NHS Fife")
       (date_range week_start week_end)
     = [0; 2; 3; 3; 1; 1; 3].
Proof. split; vm_compute; reflexivity. Qed.

Lemma monthly_key_eqb_spec (a b : string * string * string * Z) :
  monthly_key_eqb a b = true <-> a = b.
Proof.
  destruct a as [[[m1 h1] a1] q1], b as [[[m2 h2] a2] q2].
  unfold monthly_key_eqb.
  rewrite !andb_true_iff, !String.eqb_eq, Z.eqb_eq.
  split.
  - intros [[[-> ->] ->] ->]. reflexivity.
  - intro H. injection H as -> -> -> ->. repeat split; reflexivity.
Qed.

(** The monthly summary stands in the same relation to the full table,
    for the key (month, board, age group, quintile). *)
Lemma monthly_summary_round_trip (df : list row) :
  NoDup (map fst (monthly_summary df))
  /\ (forall k v,
        In (k, v) (monthly_summary df) ->
        v = reaggregate monthly_key_eqb monthly_key k df)
  /\ (forall r : row,
        In r df ->
        In (monthly_key r,
            reaggregate monthly_key_eqb monthly_key (monthly_key r) df)
           (monthly_summary df)).
Proof.
  exact (@groupby_sum_spec _ monthly_key_eqb monthly_key_leb
           monthly_key_eqb_spec monthly_key df).
Qed.

Example toy_week_monthly_summary :
  List.length (monthly_summary toy_week_table) = 12%nat
  /\ In ("2020-01", "NHS Fife", "66-75", 3, 2)
        (monthly_summary toy_week_table).
Proof. split; vm_compute; [reflexivity | tauto]. Qed.

(* ------------------------------------------------------------------ *)
(** ** The calendar on known dates *)

Example date_2019_01_01 : days_from_civil 2019 1 1 = 17897.
Proof. reflexivity. Qed.

Example civil_2024_10_31 :
  civil_from_days (days_from_civil 2024 10 31) = (2024, 10, 31).
Proof. reflexivity. Qed.

Example leap_day_2020 :
  civil_from_days (days_from_civil 2020 2 29) = (2020, 2, 29)
  /\ civil_from_days (days_from_civil 2020 2 29 + 1) = (2020, 3, 1).
Proof. split; reflexivity. Qed.

(** 2019-01-01 was a Tuesday, 2020-01-04 a Saturday. *)
Example dayofweek_known :
  dt_dayofweek (days_from_civil 2019 1 1) = 1
  /\ dt_dayofweek (days_from_civil 2020 1 4) = 5.
Proof. split; reflexivity. Qed.

(** 2021-01-03 still belongs to ISO week 53 of 2020; 2019-12-30 to week 1
    of 2020. *)
Example isoweek_known :
  dt_isoweek (days_from_civil 2021 1 3) = 53
  /\ dt_isoweek (days_from_civil 2019 12 30) = 1
  /\ dt_isoweek (days_from_civil 2024 10 31) = 44.
Proof. repeat split; reflexivity. Qed.

Example period_M_known : period_M (days_from_civil 2019 3 9) = "2019-03".
Proof. reflexivity. Qed.

(** The round trip between the two calendar functions over the leap year
    2020. *)
Example civil_round_trip :
  forallb (fun z => let '(y, m, d) := civil_from_days z in
                    days_from_civil y m d =? z)
    (date_range (days_from_civil 2020 1 1) (days_from_civil 2020 12 31))
  = true.
Proof. vm_compute. reflexivity. Qed.

(* ------------------------------------------------------------------ *)
(** ** Order and keys of the records of a frame *)

(** [subseq l m]: [l] is [m] with some elements left out, order kept. *)
Inductive subseq (A : Type) : list A -> list A -> Prop :=
| subseq_nil : subseq [] []
| subseq_skip (x : A) (l m : list A) : subseq l m -> subseq l (x :: m)
| subseq_take (x : A) (l m : list A) : subseq l m -> subseq (x :: l) (x :: m).

(** The leaf a record belongs to, within its day, and its key within a
    frame. *)
Definition leaf_key (r : record) : string * (Z * string) :=
  (age_group r, (simd_quintile r, presentation_type r)).

Definition record_key (r : record) : timestamp * (string * (Z * string)) :=
  (date r, leaf_key r).

(** All the leaves, in the order the three loops visit them. *)
Definition leaves : list (string * (Z * string)) :=
  list_prod AGE_GROUPS (list_prod SIMD_QUINTILES PRESENTATION_TYPES).

Lemma subseq_nil_l (A : Type) (m : list A) : subseq [] m.
Proof. induction m; constructor; assumption. Qed.

Lemma subseq_refl (A : Type) (l : list A) : subseq l l.
Proof.
  induction l; [apply subseq_nil | apply subseq_take; assumption].
Qed.

Lemma subseq_app (A : Type) (l1 m1 l2 m2 : list A) :
  subseq l1 m1 -> subseq l2 m2 -> subseq (l1 ++ l2) (m1 ++ m2).
Proof.
  intros H1 H2. induction H1; simpl.
  - exact H2.
  - apply subseq_skip. exact IHsubseq.
  - apply subseq_take. exact IHsubseq.
Qed.

Lemma subseq_in (A : Type) (l m : list A) (x : A) :
  subseq l m -> In x l -> In x m.
Proof.
  intro H. induction H; simpl; intro Hin.
  - exact Hin.
  - right. apply IHsubseq. exact Hin.
  - destruct Hin as [-> | Hin]; [left; reflexivity | right; auto].
Qed.

Lemma subseq_nodup (A : Type) (l m : list A) :
  subseq l m -> NoDup m -> NoDup l.
Proof.
  intro H. induction H; intro Hm.
  - constructor.
  - inversion Hm; subst. auto.
  - inversion Hm as [| ? ? Hnot Hrest]; subst.
    constructor; [| auto].
    intro Hin. apply Hnot. eapply subseq_in; eassumption.
Qed.

Lemma subseq_length (A : Type) (l m : list A) :
  subseq l m -> (List.length l <= List.length m)%nat.
Proof. intro H. induction H; simpl; lia. Qed.

Lemma subseq_map (A B : Type) (f : A -> B) (l m : list A) :
  subseq l m -> subseq (map f l) (map f m).
Proof.
  intro H. induction H; simpl;
    [apply subseq_nil | apply subseq_skip | apply subseq_take]; assumption.
Qed.

Lemma list_prod_snoc (A B : Type) (l : list A) (x : A) (l' : list B) :
  list_prod (l ++ [x]) l' = list_prod l l' ++ map (pair x) l'.
Proof.
  induction l as [| a l IH]; simpl.
  - rewrite app_nil_r. reflexivity.
  - rewrite IH, app_assoc. reflexivity.
Qed.

Lemma nodup_map_pair (A B : Type) (x : A) (l : list B) :
  NoDup l -> NoDup (map (pair x) l).
Proof.
  induction 1 as [| b l Hnot _ IH]; simpl; constructor; [| exact IH].
  intro Hin. apply in_map_iff in Hin. destruct Hin as [b' [Heq Hb']].
  injection Heq as ->. contradiction.
Qed.

Lemma nodup_list_prod (A B : Type) (l : list A) (l' : list B) :
  NoDup l -> NoDup l' -> NoDup (list_prod l l').
Proof.
  intros Hl Hl'. induction Hl as [| a l Hnot _ IH]; simpl; [constructor |].
  apply NoDup_app; [apply nodup_map_pair; exact Hl' | exact IH |].
  intros [a' b'] Hin Hin'.
  apply in_map_iff in Hin. destruct Hin as [b [Heq _]].
  injection Heq as <- <-.
  apply in_prod_iff in Hin'. destruct Hin' as [Ha _]. contradiction.
Qed.

Lemma nodup_age_groups : NoDup AGE_GROUPS.
Proof.
  unfold AGE_GROUPS.
  repeat (constructor;
          [simpl; intro H;
           repeat (destruct H as [H | H]; [discriminate H |]); exact H |]).
  constructor.
Qed.

Lemma nodup_simd_quintiles : NoDup SIMD_QUINTILES.
Proof.
  unfold SIMD_QUINTILES.
  repeat (constructor;
          [simpl; intro H;
           repeat (destruct H as [H | H]; [discriminate H |]); exact H |]).
  constructor.
Qed.

Lemma nodup_presentation_types : NoDup PRESENTATION_TYPES.
Proof.
  unfold PRESENTATION_TYPES.
  repeat (constructor;
          [simpl; intro H;
           repeat (destruct H as [H | H]; [discriminate H |]); exact H |]).
  constructor.
Qed.

Lemma nodup_leaves : NoDup leaves.
Proof.
  unfold leaves.
  apply nodup_list_prod; [exact nodup_age_groups |].
  apply nodup_list_prod;
    [exact nodup_simd_quintiles | exact nodup_presentation_types].
Qed.

Lemma leaves_length : List.length leaves = 320%nat.
Proof. reflexivity. Qed.

Lemma map_snd_enumerate (A : Type) (l : list A) :
  map snd (enumerate l) = l.
Proof.
  unfold enumerate. generalize 0%nat.
  induction l as [| x l IH]; intro k; simpl; [reflexivity |].
  rewrite IH. reflexivity.
Qed.

Lemma in_enumerate (A : Type) (l : list A) (i : nat) (x : A) :
  In (i, x) (enumerate l) -> In x l.
Proof.
  intro H. apply (in_map snd) in H. rewrite map_snd_enumerate in H. exact H.
Qed.

(** The bucket loop, label by label: [P ls out] relates the labels
    processed to what was appended; a bucket that is not positive appends
    nothing, a positive one appends a chunk [G x]. *)
Lemma for_positive_labelled (rng A : Type)
  (P : list A -> list record -> Prop) (G : A -> list record -> Prop)
  (labels : list A) (dist : list Z)
  (inner : A -> Z -> list record -> M rng (list record))
  (data : list record) (s : rng) :
  P [] [] ->
  (forall ls x o1, P ls o1 -> P (ls ++ [x]) o1) ->
  (forall ls x o1 o2, P ls o1 -> G x o2 -> P (ls ++ [x]) (o1 ++ o2)) ->
  (forall x c data' s', In x labels -> 0 < c ->
     wpe True (inner x c data') (appended data' (G x)) s') ->
  wpe True (for_positive labels dist inner data)
    (appended data (P labels)) s.
Proof.
  intros Hnil Hskip Htake Hinner. unfold for_positive.
  eapply wpe_mono;
    [| apply (@wpe_for_each rng True (nat * A) (list record) _
                (fun done acc _ =>
                   exists out, acc = data ++ out /\ P (map snd done) out)
                (enumerate labels) [] data s)].
  - intros data' s' [out [-> H]]. simpl in H.
    rewrite map_snd_enumerate in H. exists out. split; [reflexivity | exact H].
  - intros done [idx x] acc s' Hx [out [-> Hout]].
    apply in_enumerate in Hx.
    apply wpe_bind. apply wpe_index.
    destruct (nth_error dist idx) as [c |]; [| exact I].
    rewrite map_app. simpl map.
    destruct (0 <? c) eqn:Hc.
    + apply Z.ltb_lt in Hc.
      eapply wpe_mono; [| apply (Hinner x c (data ++ out) s' Hx Hc)].
      intros data' s'' [out' [-> Hout']].
      exists (out ++ out'). split; [rewrite app_assoc; reflexivity |].
      apply Htake; assumption.
    + apply wpe_ret. exists out. split; [reflexivity |].
      apply Hskip. exact Hout.
  - exists []. split; [rewrite app_nil_r; reflexivity | exact Hnil].
Qed.

Lemma subseq_prod_skip (A B : Type) (ka : record -> A) (kb : record -> B)
  (ls : list A) (x : A) (lb : list B) (o1 : list record) :
  subseq (map (fun r => (ka r, kb r)) o1) (list_prod ls lb) ->
  subseq (map (fun r => (ka r, kb r)) o1) (list_prod (ls ++ [x]) lb).
Proof.
  intro H. rewrite list_prod_snoc.
  rewrite <- (app_nil_r (map _ o1)).
  apply subseq_app; [exact H | apply subseq_nil_l].
Qed.

Lemma subseq_prod_take (A B : Type) (ka : record -> A) (kb : record -> B)
  (ls : list A) (x : A) (lb : list B) (o1 o2 : list record) :
  subseq (map (fun r => (ka r, kb r)) o1) (list_prod ls lb) ->
  subseq (map kb o2) lb ->
  Forall (fun r => ka r = x) o2 ->
  subseq (map (fun r => (ka r, kb r)) (o1 ++ o2)) (list_prod (ls ++ [x]) lb).
Proof.
  intros H1 H2 Hx. rewrite map_app, list_prod_snoc.
  apply subseq_app; [exact H1 |].
  replace (map (fun r => (ka r, kb r)) o2) with (map (pair x) (map kb o2)).
  - apply subseq_map. exact H2.
  - rewrite map_map. apply map_ext_in. intros r Hr.
    rewrite Forall_forall in Hx. rewrite (Hx r Hr). reflexivity.
Qed.

Section LeafOrder.

Variable rng : Type.
Variable np_random_poisson : R -> rng -> Z * rng.
Variable np_random_multinomial : Z -> list Q -> rng -> list Z * rng.

(** One (age, quintile) cell: the records come in the order of the types
    and carry the cell's date, board, age group and quintile. *)
Lemma split_types_order (d : timestamp) (hb age : string) (simd n : Z)
  (data : list record) (s : rng) :
  wpe True (split_types np_random_multinomial d hb age simd n data)
    (appended data
       (fun out =>
          subseq (map presentation_type out) PRESENTATION_TYPES
          /\ Forall (fun r => date r = d /\ health_board r = hb
                              /\ age_group r = age
                              /\ simd_quintile r = simd) out)) s.
Proof.
  unfold split_types. apply wpe_bind. apply wpe_draw.
  apply (@for_positive_labelled rng string
           (fun ls out =>
              subseq (map presentation_type out) ls
              /\ Forall (fun r => date r = d /\ health_board r = hb
                                  /\ age_group r = age
                                  /\ simd_quintile r = simd) out)
           (fun t o => exists c, o = [mk_record d hb age simd t c])).
  - split; [apply subseq_nil | constructor].
  - intros ls x o1 [H1 H2]. split; [| exact H2].
    rewrite <- (app_nil_r (map _ o1)).
    apply subseq_app; [exact H1 | apply subseq_nil_l].
  - intros ls x o1 o2 [H1 H2] [c ->]. split.
    + rewrite map_app. apply subseq_app; [exact H1 | apply subseq_refl].
    + apply Forall_app. split; [exact H2 |].
      constructor; [simpl; auto | constructor].
  - intros t c data' s' _ _. apply wpe_ret.
    exists [mk_record d hb age simd t c]. split; [reflexivity |].
    exists c. reflexivity.
Qed.

(** One age bucket: quintile by quintile, types within. *)
Lemma split_simd_order (d : timestamp) (hb age : string) (n : Z)
  (data : list record) (s : rng) :
  wpe True (split_simd np_random_multinomial d hb age n data)
    (appended data
       (fun out =>
          subseq (map (fun r => (simd_quintile r, presentation_type r)) out)
            (list_prod SIMD_QUINTILES PRESENTATION_TYPES)
          /\ Forall (fun r => date r = d /\ health_board r = hb
                              /\ age_group r = age) out)) s.
Proof.
  unfold split_simd. apply wpe_bind. apply wpe_draw.
  apply (@for_positive_labelled rng Z
           (fun ls out =>
              subseq
                (map (fun r => (simd_quintile r, presentation_type r)) out)
                (list_prod ls PRESENTATION_TYPES)
              /\ Forall (fun r => date r = d /\ health_board r = hb
                                  /\ age_group r = age) out)
           (fun q o =>
              subseq (map presentation_type o) PRESENTATION_TYPES
              /\ Forall (fun r => date r = d /\ health_board r = hb
                                  /\ age_group r = age
                                  /\ simd_quintile r = q) o)).
  - split; [apply subseq_nil | constructor].
  - intros ls x o1 [H1 H2]. split; [| exact H2].
    apply subseq_prod_skip. exact H1.
  - intros ls x o1 o2 [H1 H2] [H3 H4]. split.
    + apply subseq_prod_take; [exact H1 | exact H3 |].
      eapply Forall_impl; [| exact H4]. intros r [_ [_ [_ H]]]. exact H.
    + apply Forall_app. split; [exact H2 |].
      eapply Forall_impl; [| exact H4].
      intros r [Ha [Hb [Hc _]]]. auto.
  - intros q c data' s' _ _. apply split_types_order.
Qed.

(** One day: age group by age group. *)
Lemma split_ages_order (d : timestamp) (hb : string) (n : Z)
  (data : list record) (s : rng) :
  wpe True (split_ages np_random_multinomial d hb n data)
    (appended data
       (fun out =>
          subseq (map leaf_key out) leaves
          /\ Forall (fun r => date r = d /\ health_board r = hb) out)) s.
Proof.
  unfold split_ages. apply wpe_bind. apply wpe_draw.
  apply (@for_positive_labelled rng string
           (fun ls out =>
              subseq (map leaf_key out)
                (list_prod ls (list_prod SIMD_QUINTILES PRESENTATION_TYPES))
              /\ Forall (fun r => date r = d /\ health_board r = hb) out)
           (fun a o =>
              subseq
                (map (fun r => (simd_quintile r, presentation_type r)) o)
                (list_prod SIMD_QUINTILES PRESENTATION_TYPES)
              /\ Forall (fun r => date r = d /\ health_board r = hb
                                  /\ age_group r = a) o)).
  - split; [apply subseq_nil | constructor].
  - intros ls x o1 [H1 H2]. split; [| exact H2].
    apply (@subseq_prod_skip _ _ age_group
             (fun r => (simd_quintile r, presentation_type r))).
    exact H1.
  - intros ls x o1 o2 [H1 H2] [H3 H4]. split.
    + apply (@subseq_prod_take _ _ age_group
               (fun r => (simd_quintile r, presentation_type r)));
        [exact H1 | exact H3 |].
      eapply Forall_impl; [| exact H4]. intros r [_ [_ H]]. exact H.
    + apply Forall_app. split; [exact H2 |].
      eapply Forall_impl; [| exact H4]. intros r [Ha [Hb _]]. auto.
  - intros a c data' s' _ _. apply split_simd_order.
Qed.

Lemma day_body_order (base : Q) (hb : string) (data : list record)
  (d : timestamp) (s : rng) :
  wpe True
    (day_body np_random_poisson np_random_multinomial base hb data d)
    (appended data
       (fun out =>
          subseq (map leaf_key out) leaves
          /\ Forall (fun r => date r = d /\ health_board r = hb) out)) s.
Proof.
  unfold day_body. apply wpe_bind. apply wpe_lift.
  destruct (expected_presentations base (dt_dayofweek d) (dt_month d)
              (dt_year d)) as [lam | e]; [| exact I].
  apply wpe_bind. apply wpe_draw. apply split_ages_order.
Qed.

End LeafOrder.

(** Loop rule that knows where in the list the iteration stands. *)
Lemma wpe_for_each_at (rng : Type) (E : Prop) (A S : Type)
  (body : S -> A -> M rng S) (Inv : list A -> S -> rng -> Prop)
  (all : list A) (todo : list A) :
  forall (done : list A) (acc : S) (s : rng),
    all = done ++ todo ->
    (forall pre x post acc' s',
       all = pre ++ x :: post -> Inv pre acc' s' ->
       wpe E (body acc' x) (Inv (pre ++ [x])) s') ->
    Inv done acc s ->
    wpe E (for_each todo body acc) (Inv all) s.
Proof.
  induction todo as [| x rest IH]; intros done acc s Hall Hstep Hinv.
  - simpl. apply wpe_ret. rewrite app_nil_r in Hall. subst all. exact Hinv.
  - simpl. apply wpe_bind.
    eapply wpe_mono; [| apply (Hstep done x rest acc s Hall Hinv)].
    intros acc' s' Hinv'.
    apply (IH (done ++ [x]) acc' s');
      [rewrite <- app_assoc; exact Hall | exact Hstep | exact Hinv'].
Qed.

Lemma date_range_increasing (n : nat) :
  forall a b, Z.to_nat (b - a + 1) = n -> StronglySorted Z.lt (date_range a b).
Proof.
  induction n as [| n IH]; intros a b Hn.
  - rewrite date_range_empty by lia. constructor.
  - rewrite date_range_cons by lia. constructor.
    + apply IH. lia.
    + apply Forall_forall. intros x Hx. apply in_date_range in Hx. lia.
Qed.

Lemma sorted_split_lt (pre : list Z) (d : Z) (post : list Z) :
  StronglySorted Z.lt (pre ++ d :: post) -> Forall (fun x => x < d) pre.
Proof.
  induction pre as [| x pre IH]; simpl; intro H; [constructor |].
  apply StronglySorted_inv in H. destruct H as [Hrest Hall].
  constructor; [| apply IH; exact Hrest].
  rewrite Forall_app in Hall. destruct Hall as [_ Hd].
  apply Forall_inv in Hd. exact Hd.
Qed.

Lemma strongly_sorted_app (A : Type) (Rel : A -> A -> Prop)
  (l1 l2 : list A) :
  StronglySorted Rel l1 -> StronglySorted Rel l2 ->
  (forall x y, In x l1 -> In y l2 -> Rel x y) ->
  StronglySorted Rel (l1 ++ l2).
Proof.
  intros H1 H2 Hcross.
  induction H1 as [| x l1 Hl1 IH Hx]; simpl; [exact H2 |].
  constructor.
  - apply IH. intros a b Ha Hb. apply Hcross; [right; exact Ha | exact Hb].
  - apply Forall_app. split; [exact Hx |].
    apply Forall_forall. intros y Hy.
    apply Hcross; [left; reflexivity | exact Hy].
Qed.

Lemma same_date_sorted (d : timestamp) (l : list record) :
  Forall (fun r => date r = d) l ->
  StronglySorted (fun r1 r2 => date r1 <= date r2) l.
Proof.
  induction 1 as [| r l Hr Hl IH]; constructor; [exact IH |].
  eapply Forall_impl; [| exact Hl]. intros r' Hr'. simpl in Hr'. lia.
Qed.

(** The frame of one board: ascending dates, one record per
    (date, age group, quintile, type), labels of the three enumerations. *)
Lemma generate_order_spec (rng : Type)
  (np_random_poisson : R -> rng -> Z * rng)
  (np_random_multinomial : Z -> list Q -> rng -> list Z * rng)
  (start_date end_date : timestamp) (hb : string) (s : rng) :
  wpe True
    (generate_time_series_data np_random_poisson np_random_multinomial
       start_date end_date hb)
    (fun data _ =>
       StronglySorted (fun r1 r2 => date r1 <= date r2) data
       /\ NoDup (map record_key data)
       /\ Forall (fun r => In (leaf_key r) leaves) data) s.
Proof.
  unfold generate_time_series_data.
  pose proof (date_range_increasing start_date end_date eq_refl) as Hinc.
  eapply wpe_mono;
    [| apply (@wpe_for_each_at rng True timestamp (list record)
                (day_body np_random_poisson np_random_multinomial
                   (base_demand hb) hb)
                (fun pre data _ =>
                   StronglySorted (fun r1 r2 => date r1 <= date r2) data
                   /\ NoDup (map record_key data)
                   /\ Forall (fun r => In (date r) pre
                                       /\ In (leaf_key r) leaves) data)
                (date_range start_date end_date)
                (date_range start_date end_date) [] [] s eq_refl)].
  - intros data s' [H1 [H2 H3]]. split; [exact H1 |]. split; [exact H2 |].
    eapply Forall_impl; [| exact H3]. intros r [_ H]. exact H.
  - intros pre d post acc s' Hsplit [Hs [Hk Hf]].
    rewrite Hsplit in Hinc. apply sorted_split_lt in Hinc.
    rewrite Forall_forall in Hinc, Hf.
    eapply wpe_mono;
      [| apply (day_body_order np_random_poisson np_random_multinomial
                  (base_demand hb) hb acc d s')].
    intros data' s'' [out [-> [Hsub Hout]]].
    assert (Hd : Forall (fun r => date r = d) out)
      by (eapply Forall_impl; [| exact Hout]; intros r [H _]; exact H).
    rewrite Forall_forall in Hd.
    split; [| split].
    + apply strongly_sorted_app;
        [exact Hs | apply (same_date_sorted (d := d));
                    apply Forall_forall; exact Hd |].
      intros x y Hx Hy. destruct (Hf x Hx) as [Hpre _].
      pose proof (Hinc _ Hpre). rewrite (Hd y Hy). lia.
    + rewrite map_app. apply NoDup_app; [exact Hk | |].
      * replace (map record_key out) with (map (pair d) (map leaf_key out)).
        -- apply nodup_map_pair.
           eapply subseq_nodup; [exact Hsub | exact nodup_leaves].
        -- rewrite map_map. apply map_ext_in. intros r Hr.
           unfold record_key. rewrite (Hd r Hr). reflexivity.
      * intros k Hk1 Hk2.
        apply in_map_iff in Hk1. destruct Hk1 as [x [Hkx Hx]].
        apply in_map_iff in Hk2. destruct Hk2 as [y [Hky Hy]].
        destruct (Hf x Hx) as [Hpre _]. pose proof (Hinc _ Hpre) as Hlt.
        assert (Hxy : date x = date y)
          by (unfold record_key in Hkx, Hky; congruence).
        rewrite Hxy, (Hd y Hy) in Hlt. lia.
    + apply Forall_forall. intros r Hr.
      apply in_app_or in Hr. destruct Hr as [Hr | Hr].
      * destruct (Hf r Hr) as [Hpre Hleaf].
        split; [apply in_or_app; left; exact Hpre | exact Hleaf].
      * split.
        -- apply in_or_app. right. left. symmetry. exact (Hd r Hr).
        -- eapply subseq_in; [exact Hsub |]. apply in_map. exact Hr.
  - split; [constructor |]. split; constructor.
Qed.

(** X1. The frame [generate_time_series_data] returns is in date order:
    no record is followed by a record of an earlier date. *)
Theorem frame_sorted_by_date (rng : Type)
  (np_random_poisson : R -> rng -> Z * rng)
  (np_random_multinomial : Z -> list Q -> rng -> list Z * rng)
  (start_date end_date : timestamp) (hb : string) (s : rng)
  (data : list record) (s' : rng) :
  generate_time_series_data np_random_poisson np_random_multinomial
    start_date end_date hb s = Ok (data, s') ->
  StronglySorted (fun r1 r2 => date r1 <= date r2) data.
Proof.
  intro Hrun.
  exact (proj1 (wpe_partial
                  (generate_order_spec np_random_poisson
                     np_random_multinomial start_date end_date hb s) Hrun)).
Qed.

Lemma frame_sorted_by_date_witness :
  Toy.generate week_start week_end "NHS Fife" 1
  = Ok (toy_week_data, toy_week_state)
  /\ StronglySorted (fun r1 r2 => date r1 <= date r2) toy_week_data.
Proof.
  split; [exact toy_week_run |].
  exact (frame_sorted_by_date Toy.poisson Toy.multinomial week_start
           week_end "NHS Fife" 1 toy_week_run).
Defined.

(** X2. Within a frame, (date, age group, quintile, presentation type) is
    a key: no two records agree on all four. *)
Theorem frame_primary_key (rng : Type)
  (np_random_poisson : R -> rng -> Z * rng)
  (np_random_multinomial : Z -> list Q -> rng -> list Z * rng)
  (start_date end_date : timestamp) (hb : string) (s : rng)
  (data : list record) (s' : rng) :
  generate_time_series_data np_random_poisson np_random_multinomial
    start_date end_date hb s = Ok (data, s') ->
  NoDup (map record_key data).
Proof.
  intro Hrun.
  exact (proj1 (proj2 (wpe_partial
                         (generate_order_spec np_random_poisson
                            np_random_multinomial start_date end_date hb s)
                         Hrun))).
Qed.

Lemma frame_primary_key_witness :
  Toy.generate week_start week_end "NHS Fife" 1
  = Ok (toy_week_data, toy_week_state)
  /\ NoDup (map record_key toy_week_data).
Proof.
  split; [exact toy_week_run |].
  exact (frame_primary_key Toy.poisson Toy.multinomial week_start
           week_end "NHS Fife" 1 toy_week_run).
Defined.

(** X3. Every record of a frame carries an age group of [AGE_GROUPS], a
    quintile of [SIMD_QUINTILES] and a type of [PRESENTATION_TYPES]. *)
Theorem frame_labels_enumerated (rng : Type)
  (np_random_poisson : R -> rng -> Z * rng)
  (np_random_multinomial : Z -> list Q -> rng -> list Z * rng)
  (start_date end_date : timestamp) (hb : string) (s : rng)
  (data : list record) (s' : rng) :
  generate_time_series_data np_random_poisson np_random_multinomial
    start_date end_date hb s = Ok (data, s') ->
  forall r, In r data ->
    In (age_group r) AGE_GROUPS
    /\ In (simd_quintile r) SIMD_QUINTILES
    /\ In (presentation_type r) PRESENTATION_TYPES.
Proof.
  intros Hrun r Hr.
  pose proof (proj2 (proj2 (wpe_partial
                              (generate_order_spec np_random_poisson
                                 np_random_multinomial start_date end_date
                                 hb s) Hrun))) as H.
  rewrite Forall_forall in H. specialize (H r Hr).
  unfold leaf_key, leaves in H.
  apply in_prod_iff in H. destruct H as [Ha H].
  apply in_prod_iff in H. destruct H as [Hq Ht].
  auto.
Qed.

Lemma frame_labels_enumerated_witness :
  Toy.generate week_start week_end "NHS Fife" 1
  = Ok (toy_week_data, toy_week_state)
  /\ Forall (fun r => In (age_group r) AGE_GROUPS
                      /\ In (simd_quintile r) SIMD_QUINTILES
                      /\ In (presentation_type r) PRESENTATION_TYPES)
       toy_week_data.
Proof.
  split; [exact toy_week_run |].
  apply Forall_forall. intros r Hr.
  exact (frame_labels_enumerated Toy.poisson Toy.multinomial week_start
           week_end "NHS Fife" 1 toy_week_run r Hr).
Defined.

(** X4. The records one day appends come in the order of the loops (age
    group, then quintile, then type), each leaf at most once: at most 320
    records a day. *)
Theorem day_records_in_leaf_order (rng : Type)
  (np_random_poisson : R -> rng -> Z * rng)
  (np_random_multinomial : Z -> list Q -> rng -> list Z * rng)
  (base : Q) (hb : string) (data : list record) (d : timestamp) (s : rng)
  (data' : list record) (s' : rng) :
  day_body np_random_poisson np_random_multinomial base hb data d s
  = Ok (data', s') ->
  exists out,
    data' = data ++ out
    /\ subseq (map leaf_key out) leaves
    /\ (List.length out <= 320)%nat.
Proof.
  intro Hrun.
  destruct (wpe_partial
              (day_body_order np_random_poisson np_random_multinomial base
                 hb data d s) Hrun) as [out [-> [Hsub _]]].
  exists out. split; [reflexivity |]. split; [exact Hsub |].
  apply subseq_length in Hsub.
  rewrite length_map, leaves_length in Hsub. exact Hsub.
Qed.

Definition toy_day_data : list record :=
  [ mk_record week_start "NHS Fife" "56-65" 3 "Eating Disorder" 1;
    mk_record week_start "NHS Fife" "66-75" 5 "Self Harm" 1;
    mk_record week_start "NHS Fife" "76+" 1 "Suicidal Ideation" 1 ].

Lemma toy_day_run :
  day_body Toy.poisson Toy.multinomial (base_demand "NHS Fife") "NHS Fife"
    [] week_start 200000
  = Ok (toy_day_data, 1952059030).
Proof. vm_compute. reflexivity. Qed.

Lemma day_records_in_leaf_order_witness :
  day_body Toy.poisson Toy.multinomial (base_demand "NHS Fife") "NHS Fife"
    [] week_start 200000
  = Ok (toy_day_data, 1952059030)
  /\ exists out,
       toy_day_data = [] ++ out
       /\ subseq (map leaf_key out) leaves
       /\ (List.length out <= 320)%nat.
Proof.
  split; [exact toy_day_run |].
  exact (day_records_in_leaf_order Toy.poisson Toy.multinomial
           (base_demand "NHS Fife") "NHS Fife" [] week_start 200000
           toy_day_run).
Defined.

(* ------------------------------------------------------------------ *)
(** ** Empty days, exceptions and the rows of the complete dataset *)

Lemma total_ge_length (l : list record) :
  Forall (fun r => 1 <= presentations r) l ->
  Z.of_nat (List.length l) <= total l.
Proof.
  unfold total. induction 1 as [| r l Hr _ IH]; simpl List.length; simpl;
    lia.
Qed.



(** X6. With a multinomial sampler that keeps numpy's contract, and for a
    range within 1999-01-01 .. 2262-04-11, [generate_time_series_data]
    hands the Poisson sampler a mean between 0 and 4000 on every day and
    raises nothing, for any board: every index into a draw is in range
    and every weekday has its factor.  The bound on the start is needed:
    on every day before 1999-01-01 the mean is negative, for every
    board. *)
Theorem generate_never_raises (rng : Type)
  (np_random_poisson : R -> rng -> Z * rng)
  (np_random_multinomial : Z -> list Q -> rng -> list Z * rng) :
  numpy_contract np_random_multinomial ->
  (forall start_date end_date hb s,
     first_valid_day <= start_date -> end_date <= last_valid_day ->
     (forall d, In d (date_range start_date end_date) ->
        exists lam,
          expected_presentations (base_demand hb) (dt_dayofweek d)
            (dt_month d) (dt_year d) = Ok lam
          /\ (0 <= lam <= 4000)%R)
     /\ (forall e,
           generate_time_series_data np_random_poisson
             np_random_multinomial start_date end_date hb s <> Raise e))
  /\ (forall d hb,
        d < first_valid_day ->
        exists lam,
          expected_presentations (base_demand hb) (dt_dayofweek d)
            (dt_month d) (dt_year d) = Ok lam
          /\ (lam < 0)%R).
Proof.
  intros C. split.
  - intros start_date end_date hb s Hlo Hhi.
    split; [apply valid_range_means; assumption |].
    intro e.
    destruct (wpe_total
                (generate_spec np_random_poisson (E := False) (or_intror C)
                   start_date end_date hb s)) as [data [s' [H _]]].
    rewrite H. discriminate.
  - intros d hb Hd. apply poisson_argument_negative. exact Hd.
Qed.

Lemma generate_never_raises_witness :
  numpy_contract Toy.multinomial
  /\ first_valid_day <= week_start
  /\ week_end <= last_valid_day
  /\ Toy.generate week_start week_end "NHS Fife" 1 <> Raise IndexError
  /\ Toy.generate week_start week_end "NHS Fife" 1 <> Raise KeyError
  /\ (new_year_1990 < first_valid_day
      /\ exists lam,
           expected_presentations (base_demand "NHS Fife")
             (dt_dayofweek new_year_1990) (dt_month new_year_1990)
             (dt_year new_year_1990) = Ok lam
           /\ (lam < 0)%R).
Proof.
  destruct (generate_never_raises Toy.poisson toy_contract)
    as [Hvalid Hbefore].
  assert (Hlo : first_valid_day <= week_start) by (vm_compute; discriminate).
  assert (Hhi : week_end <= last_valid_day) by (vm_compute; discriminate).
  assert (Hold : new_year_1990 < first_valid_day)
    by (vm_compute; reflexivity).
  destruct (Hvalid week_start week_end "NHS Fife" 1 Hlo Hhi) as [_ Hrun].
  split; [exact toy_contract |]. split; [exact Hlo |].
  split; [exact Hhi |]. split; [apply Hrun |]. split; [apply Hrun |].
  split; [exact Hold |].
  exact (Hbefore new_year_1990 "NHS Fife" Hold).
Defined.

(** A sampler whose Poisson draws are never positive yields empty
    frames. *)
Lemma generate_without_draws (rng : Type)
  (np_random_poisson : R -> rng -> Z * rng)
  (np_random_multinomial : Z -> list Q -> rng -> list Z * rng)
  (start_date end_date : timestamp) (hb : string) (s : rng) :
  numpy_contract np_random_multinomial ->
  (forall lam s0, fst (np_random_poisson lam s0) <= 0) ->
  wpe False
    (generate_time_series_data np_random_poisson np_random_multinomial
       start_date end_date hb)
    (fun data _ => data = []) s.
Proof.
  intros C Hzero. unfold generate_time_series_data.
  eapply wpe_mono;
    [| apply (@wpe_for_each rng False timestamp (list record)
                (day_body np_random_poisson np_random_multinomial
                   (base_demand hb) hb)
                (fun _ data _ => data = [])
                (date_range start_date end_date) [] [] s)].
  - intros data s' H. exact H.
  - intros done d acc s' _ ->.
    destruct (day_body_spec np_random_poisson (E := False) (or_intror C)
                (base_demand hb) hb [] d s') as [lam [_ Hday]].
    eapply wpe_mono; [| exact Hday].
    intros data' s'' [out [-> [HF HT]]].
    specialize (HT C). pose proof (Hzero lam s') as Hk.
    assert (Hlen : Z.of_nat (List.length out) <= total out).
    { apply total_ge_length. eapply Forall_impl; [| exact HF].
      intros r [H _]. exact H. }
    destruct out as [| r out]; [reflexivity |].
    simpl List.length in Hlen. lia.
  - reflexivity.
Qed.

(** The loop over the boards collects one frame per board. *)
Lemma boards_loop_spec (rng : Type) (E : Prop)
  (np_random_poisson : R -> rng -> Z * rng)
  (np_random_multinomial : Z -> list Q -> rng -> list Z * rng)
  (Qf : list record -> Prop) (start_date end_date : timestamp)
  (boards : list string) (s : rng) :
  (forall hb s0, In hb boards ->
     wpe E
       (generate_time_series_data np_random_poisson np_random_multinomial
          start_date end_date hb)
       (fun data _ => Qf data) s0) ->
  wpe E
    (for_each boards
       (fun all_data board =>
          board_data <-
            generate_time_series_data np_random_poisson
              np_random_multinomial start_date end_date board ;;
          ret (all_data ++ [board_data]))
       [])
    (fun all_data _ => Forall Qf all_data) s.
Proof.
  intro Hgen.
  eapply wpe_mono;
    [| apply (@wpe_for_each rng E string (list (list record)) _
                (fun _ all_data _ => Forall Qf all_data) boards [] [] s)].
  - intros all_data s' H. exact H.
  - intros done hb acc s' Hhb Hacc.
    apply wpe_bind.
    eapply wpe_mono; [| apply (Hgen hb s' Hhb)].
    intros data s'' Hdata. apply wpe_ret.
    apply Forall_app. split; [exact Hacc |].
    constructor; [exact Hdata | constructor].
  - constructor.
Qed.

Lemma concat_all_nil (A : Type) (l : list (list A)) :
  Forall (fun f => f = []) l -> List.concat l = [].
Proof.
  induction 1 as [| f l Hf _ IH]; simpl; [reflexivity |].
  rewrite Hf, IH. reflexivity.
Qed.

(** X7. With a multinomial sampler that keeps numpy's contract, the only
    exception [generate_complete_dataset] can raise is the [KeyError] of
    sorting a frame without a [date] column, and it does raise it when no
    Poisson draw is positive: a run without any presentation ends in an
    error, not in an empty table. *)
Theorem complete_dataset_key_error (rng : Type)
  (np_random_poisson : R -> rng -> Z * rng)
  (np_random_multinomial : Z -> list Q -> rng -> list Z * rng)
  (sort_values : list record -> list record) (s : rng) :
  numpy_contract np_random_multinomial ->
  (forall e,
     generate_complete_dataset np_random_poisson np_random_multinomial
       sort_values s = Raise e ->
     e = KeyError)
  /\ ((forall lam s0, fst (np_random_poisson lam s0) <= 0) ->
      generate_complete_dataset np_random_poisson np_random_multinomial
        sort_values s = Raise KeyError).
Proof.
  intro C. split.
  - intros e. unfold generate_complete_dataset. cbv zeta.
    unfold bind at 1.
    assert (Hloop :
      wpe False
        (for_each HEALTH_BOARDS
           (fun all_data board =>
              board_data <-
                generate_time_series_data np_random_poisson
                  np_random_multinomial (days_from_civil 2019 1 1)
                  (days_from_civil 2024 10 31) board ;;
              ret (all_data ++ [board_data]))
           [])
        (fun all_data _ => Forall (fun _ => True) all_data) s).
    { apply boards_loop_spec. intros hb s0 _.
      eapply wpe_mono;
        [| apply (generate_spec np_random_poisson (E := False)
                    (or_intror C) (days_from_civil 2019 1 1)
                    (days_from_civil 2024 10 31) hb s0)].
      intros; exact I. }
    destruct (wpe_total Hloop) as [all_data [s' [Hrun _]]].
    rewrite Hrun.
    destruct (List.concat all_data); unfold raise, ret; intro H;
      [injection H as <-; reflexivity | discriminate H].
  - intro Hzero. unfold generate_complete_dataset. cbv zeta.
    unfold bind at 1.
    assert (Hloop :
      wpe False
        (for_each HEALTH_BOARDS
           (fun all_data board =>
              board_data <-
                generate_time_series_data np_random_poisson
                  np_random_multinomial (days_from_civil 2019 1 1)
                  (days_from_civil 2024 10 31) board ;;
              ret (all_data ++ [board_data]))
           [])
        (fun all_data _ => Forall (fun f => f = []) all_data) s).
    { apply boards_loop_spec. intros hb s0 _.
      apply generate_without_draws; assumption. }
    destruct (wpe_total Hloop) as [all_data [s' [Hrun Hall]]].
    rewrite Hrun, (concat_all_nil Hall). reflexivity.
Qed.

(** A Poisson sampler that never draws a presentation. *)
Definition no_draw (lam : R) (s : Toy.rng) : Z * Toy.rng := (0, s).

Lemma complete_dataset_key_error_witness :
  numpy_contract Toy.multinomial
  /\ (forall lam s0, fst (no_draw lam s0) <= 0)
  /\ generate_complete_dataset no_draw Toy.multinomial Toy.sort_values 42
     = Raise KeyError.
Proof.
  assert (Hzero : forall lam s0, fst (no_draw lam s0) <= 0)
    by (intros lam s0; simpl; lia).
  split; [exact toy_contract |]. split; [exact Hzero |].
  exact (proj2 (@complete_dataset_key_error Toy.rng no_draw Toy.multinomial
                  Toy.sort_values 42 toy_contract) Hzero).
Defined.

Lemma in_concat_frames (A : Type) (Qr : A -> Prop) (l : list (list A))
  (x : A) :
  Forall (Forall Qr) l -> In x (List.concat l) -> Qr x.
Proof.
  intros H Hin. apply in_concat in Hin. destruct Hin as [f [Hf Hx]].
  rewrite Forall_forall in H. specialize (H f Hf).
  rewrite Forall_forall in H. apply H. exact Hx.
Qed.

(** X8. When [sort_values] only reorders its rows, every row of the table
    [generate_complete_dataset] returns has a board of [HEALTH_BOARDS], a
    date from 2019-01-01 to 2024-10-31 and a count of at least 1, and its
    [year], [month] and [week_of_year] columns are those of its date. *)
Theorem complete_dataset_rows (rng : Type)
  (np_random_poisson : R -> rng -> Z * rng)
  (np_random_multinomial : Z -> list Q -> rng -> list Z * rng)
  (sort_values : list record -> list record)
  (s : rng) (df : list row) (s' : rng) :
  (forall l, Permutation (sort_values l) l) ->
  generate_complete_dataset np_random_poisson np_random_multinomial
    sort_values s = Ok (df, s') ->
  forall r : row, In r df ->
    In (health_board r) HEALTH_BOARDS
    /\ days_from_civil 2019 1 1 <= date r <= days_from_civil 2024 10 31
    /\ 1 <= presentations r
    /\ year r = dt_year (date r)
    /\ month r = dt_month (date r)
    /\ week_of_year r = dt_isoweek (date r).
Proof.
  intros Hperm Hrun r Hr.
  unfold generate_complete_dataset in Hrun. cbv zeta in Hrun.
  unfold bind at 1 in Hrun.
  assert (Hloop :
    wpe True
      (for_each HEALTH_BOARDS
         (fun all_data board =>
            board_data <-
              generate_time_series_data np_random_poisson
                np_random_multinomial (days_from_civil 2019 1 1)
                (days_from_civil 2024 10 31) board ;;
            ret (all_data ++ [board_data]))
         [])
      (fun all_data _ =>
         Forall
           (Forall (fun x : record =>
                      In (health_board x) HEALTH_BOARDS
                      /\ days_from_civil 2019 1 1 <= date x
                         <= days_from_civil 2024 10 31
                      /\ 1 <= presentations x)) all_data) s).
  { apply boards_loop_spec. intros hb s0 Hhb.
    eapply wpe_mono;
      [| apply (generate_spec np_random_poisson (E := True)
                  (np_random_multinomial := np_random_multinomial)
                  (or_introl I) (days_from_civil 2019 1 1)
                  (days_from_civil 2024 10 31) hb s0)].
    intros data s0' HF. eapply Forall_impl; [| exact HF].
    intros x [Hp [Hd Hb]]. rewrite Hb. auto. }
  unfold wpe in Hloop.
  destruct (for_each HEALTH_BOARDS _ [] s) as [[all_data s1] | e];
    [| discriminate Hrun].
  rename Hloop into Hall.
  destruct (List.concat all_data) as [| x0 rest] eqn:Hcat;
    [discriminate Hrun |].
  unfold ret in Hrun. injection Hrun as <- _.
  apply in_map_iff in Hr. destruct Hr as [x [<- Hx]].
  apply (Permutation_in _ (Hperm _)) in Hx. rewrite <- Hcat in Hx.
  destruct (in_concat_frames _ Hall Hx) as [Hb [Hd Hp]].
  unfold attach_calendar; simpl. auto 10.
Qed.

Lemma toy_sort_values_perm (l : list record) :
  Permutation (Toy.sort_values l) l.
Proof. symmetry. apply Toy.DateSort.Permuted_sort. Qed.

Lemma complete_dataset_rows_witness :
  generate_complete_dataset Sparse.poisson Sparse.multinomial
    Toy.sort_values 0
  = Ok ([attach_calendar (sparse_record "NHS Ayrshire and Arran")], 29834)
  /\ In (health_board (sparse_record "NHS Ayrshire and Arran"))
        HEALTH_BOARDS
  /\ year (attach_calendar (sparse_record "NHS Ayrshire and Arran")) = 2019.
Proof.
  split; [exact sparse_complete_dataset |].
  destruct (@complete_dataset_rows Sparse.rng Sparse.poisson
              Sparse.multinomial Toy.sort_values 0 _ 29834
              toy_sort_values_perm sparse_complete_dataset
              (attach_calendar (sparse_record "NHS Ayrshire and Arran"))
              (or_introl eq_refl)) as [Hb [_ [_ [Hy _]]]].
  split; [exact Hb |].
  rewrite Hy. reflexivity.
Defined.

(* ------------------------------------------------------------------ *)
(** ** Boards with the same multiplier *)

(** A record under another board, and a frame under another board. *)
Definition set_board (hb : string) (r : record) : record :=
  mk_record (date r) hb (age_group r) (simd_quintile r)
    (presentation_type r) (presentations r).

Definition relabel (hb : string) (data : list record) : list record :=
  map (set_board hb) data.

(** The outcome with a function applied to the value returned. *)
Definition result_map (A B S : Type) (f : A -> B) (r : result (A * S))
  : result (B * S) :=
  match r with
  | Ok (a, s) => Ok (f a, s)
  | Raise e => Raise e
  end.

Lemma for_each_commute (rng A S : Type) (phi : S -> S)
  (body1 body2 : S -> A -> M rng S) (l : list A) :
  (forall acc x s, body2 (phi acc) x s = result_map phi (body1 acc x s)) ->
  forall acc s,
    for_each l body2 (phi acc) s = result_map phi (for_each l body1 acc s).
Proof.
  intro Hbody. induction l as [| x l IH]; intros acc s; simpl.
  - reflexivity.
  - unfold bind. rewrite Hbody.
    destruct (body1 acc x s) as [[acc' s'] | e]; simpl; [apply IH |].
    reflexivity.
Qed.

Lemma for_positive_commute (rng A : Type)
  (phi : list record -> list record) (labels : list A) (dist : list Z)
  (inner1 inner2 : A -> Z -> list record -> M rng (list record)) :
  (forall x c data s,
     inner2 x c (phi data) s = result_map phi (inner1 x c data s)) ->
  forall data s,
    for_positive labels dist inner2 (phi data) s
    = result_map phi (for_positive labels dist inner1 data s).
Proof.
  intros Hinner data s. unfold for_positive.
  apply for_each_commute. intros acc [idx x] s0.
  unfold bind, index.
  destruct (nth_error dist idx) as [c |]; simpl; [| reflexivity].
  destruct (0 <? c); [apply Hinner | reflexivity].
Qed.

Section Relabel.

Variable rng : Type.
Variable np_random_poisson : R -> rng -> Z * rng.
Variable np_random_multinomial : Z -> list Q -> rng -> list Z * rng.
Variables hb1 hb2 : string.

Lemma split_types_relabel (d : timestamp) (age : string) (simd n : Z)
  (data : list record) (s : rng) :
  split_types np_random_multinomial d hb2 age simd n (relabel hb2 data) s
  = result_map (relabel hb2)
      (split_types np_random_multinomial d hb1 age simd n data s).
Proof.
  unfold split_types, bind, draw.
  destruct (np_random_multinomial n type_weights s) as [dist s1].
  apply for_positive_commute. intros t c data' s'.
  unfold ret, relabel. simpl. rewrite map_app. reflexivity.
Qed.

Lemma split_simd_relabel (d : timestamp) (age : string) (n : Z)
  (data : list record) (s : rng) :
  split_simd np_random_multinomial d hb2 age n (relabel hb2 data) s
  = result_map (relabel hb2)
      (split_simd np_random_multinomial d hb1 age n data s).
Proof.
  unfold split_simd, bind, draw.
  destruct (np_random_multinomial n simd_weights s) as [dist s1].
  apply for_positive_commute. intros q c data' s'.
  apply split_types_relabel.
Qed.

Lemma split_ages_relabel (d : timestamp) (n : Z) (data : list record)
  (s : rng) :
  split_ages np_random_multinomial d hb2 n (relabel hb2 data) s
  = result_map (relabel hb2)
      (split_ages np_random_multinomial d hb1 n data s).
Proof.
  unfold split_ages, bind, draw.
  destruct (np_random_multinomial n age_weights s) as [dist s1].
  apply for_positive_commute. intros a c data' s'.
  apply split_simd_relabel.
Qed.

Lemma day_body_relabel (base : Q) (data : list record) (d : timestamp)
  (s : rng) :
  day_body np_random_poisson np_random_multinomial base hb2
    (relabel hb2 data) d s
  = result_map (relabel hb2)
      (day_body np_random_poisson np_random_multinomial base hb1 data d s).
Proof.
  unfold day_body, bind, lift, draw.
  destruct (expected_presentations base (dt_dayofweek d) (dt_month d)
              (dt_year d)) as [lam | e]; [| reflexivity].
  destruct (np_random_poisson lam s) as [k s1]. simpl.
  apply split_ages_relabel.
Qed.

End Relabel.

(** X9. The board enters a frame only through its multiplier and its
    name: for two boards with the same base demand, listed or not, the
    generator makes the same draws and returns the same frame up to the
    [health_board] column, with the same final generator state.  An
    identifier outside the enumeration therefore gets the frame of NHS
    Fife (multiplier 1.0) under its own name. *)
Theorem same_multiplier_same_frame (rng : Type)
  (np_random_poisson : R -> rng -> Z * rng)
  (np_random_multinomial : Z -> list Q -> rng -> list Z * rng)
  (start_date end_date : timestamp) (hb1 hb2 : string) (s : rng) :
  base_demand hb2 = base_demand hb1 ->
  generate_time_series_data np_random_poisson np_random_multinomial
    start_date end_date hb2 s
  = result_map (relabel hb2)
      (generate_time_series_data np_random_poisson np_random_multinomial
         start_date end_date hb1 s).
Proof.
  intro Hbase. unfold generate_time_series_data. rewrite Hbase.
  change (@nil record) with (relabel hb2 []) at 1.
  apply for_each_commute. intros acc d s0.
  apply day_body_relabel.
Qed.

Lemma same_multiplier_same_frame_witness :
  base_demand "NHS Narnia" = base_demand "NHS Fife"
  /\ Toy.generate week_start week_end "NHS Narnia" 1
     = Ok (relabel "NHS Narnia" toy_week_data, toy_week_state).
Proof.
  assert (Hbase : base_demand "NHS Narnia" = base_demand "NHS Fife")
    by reflexivity.
  split; [exact Hbase |].
  pose proof toy_week_run as Hrun.
  unfold Toy.generate in *.
  rewrite (same_multiplier_same_frame Toy.poisson Toy.multinomial
             week_start week_end (hb1 := "NHS Fife") (hb2 := "NHS Narnia")
             1 Hbase).
  rewrite Hrun. reflexivity.
Defined.

(* ------------------------------------------------------------------ *)
(** ** Grouped sums of any table *)

Section GroupByOf.

Variables T K : Type.
Variable key_eqb : K -> K -> bool.
Variable key_leb : K -> K -> bool.
Variable key : T -> K.
Variable val : T -> Z.

(** [groupby(key)[val].sum().reset_index()] on a table of rows [T]. *)
Definition group_sums_of (l : list T) : list (K * Z) :=
  fold_left (fun acc r => agg_add key_eqb (key r) (val r) acc) l [].

Definition groupby_sum_of (l : list T) : list (K * Z) :=
  sort_groups key_leb (group_sums_of l).

Hypothesis key_eqb_spec : forall a b, key_eqb a b = true <-> a = b.

(** Sum of [f] over the elements selected by [p]. *)
Lemma zsum_filter (X : Type) (f : X -> Z) (p : X -> bool) (l : list X) :
  zsum (map f (filter p l))
  = zsum (map (fun x => if p x then f x else 0) l).
Proof.
  induction l as [| x l IH]; simpl; [reflexivity |].
  destruct (p x); simpl; rewrite IH; reflexivity.
Qed.

Lemma zsum_perm (l l' : list Z) : Permutation l l' -> zsum l = zsum l'.
Proof. induction 1; simpl; lia. Qed.

Lemma selected_agg_add (phi : K -> bool) (k : K) (v : Z)
  (acc : list (K * Z)) :
  zsum (map (fun g => if phi (fst g) then snd g else 0)
          (agg_add key_eqb k v acc))
  = zsum (map (fun g => if phi (fst g) then snd g else 0) acc)
    + (if phi k then v else 0).
Proof.
  induction acc as [| [k0 v0] acc IH]; simpl.
  - destruct (phi k); lia.
  - destruct (key_eqb k k0) eqn:E; simpl.
    + apply key_eqb_spec in E. subst k0. destruct (phi k); lia.
    + rewrite IH. lia.
Qed.

Lemma selected_fold (phi : K -> bool) (l : list T) :
  forall acc,
    zsum (map (fun g => if phi (fst g) then snd g else 0)
            (fold_left (fun acc r => agg_add key_eqb (key r) (val r) acc)
               l acc))
    = zsum (map (fun g => if phi (fst g) then snd g else 0) acc)
      + zsum (map (fun r => if phi (key r) then val r else 0) l).
Proof.
  induction l as [| r l IH]; intro acc; simpl; [lia |].
  rewrite IH, selected_agg_add. lia.
Qed.

(** Any selection of the groups by key sums to the same selection of the
    rows. *)
Lemma groupby_selected (phi : K -> bool) (l : list T) :
  zsum (map snd (filter (fun g => phi (fst g)) (groupby_sum_of l)))
  = zsum (map val (filter (fun r => phi (key r)) l)).
Proof.
  rewrite !zsum_filter. unfold groupby_sum_of, group_sums_of.
  rewrite (zsum_perm
             (Permutation_map _ (sort_groups_perm key_leb
                                   (fold_left _ l [])))).
  rewrite selected_fold. simpl. reflexivity.
Qed.

Lemma fold_agg_keys (l : list T) :
  forall acc,
    NoDup (map fst acc) ->
    NoDup (map fst (fold_left
                      (fun acc r => agg_add key_eqb (key r) (val r) acc)
                      l acc))
    /\ (forall k,
          In k (map fst (fold_left
                           (fun acc r => agg_add key_eqb (key r) (val r) acc)
                           l acc))
          <-> In k (map fst acc) \/ In k (map key l)).
Proof.
  induction l as [| r l IH]; intros acc Hnd; simpl.
  - split; [exact Hnd | intuition].
  - destruct (IH (agg_add key_eqb (key r) (val r) acc)) as [H1 H2].
    { apply (nodup_agg_add key_eqb key_leb key_eqb_spec). exact Hnd. }
    split; [exact H1 |].
    intro k.
    rewrite H2, (keys_agg_add key_eqb key_leb key_eqb_spec). intuition.
Qed.

(** The grouped sum of any table against the sum over its rows: one group
    per key, each holding the sum of [val] over the rows with that key,
    and a group for every key that occurs. *)
Lemma groupby_sum_of_spec (l : list T) :
  NoDup (map fst (groupby_sum_of l))
  /\ (forall k v,
        In (k, v) (groupby_sum_of l) ->
        v = zsum (map val (filter (fun r => key_eqb k (key r)) l)))
  /\ (forall r, In r l -> In (key r) (map fst (groupby_sum_of l))).
Proof.
  pose proof (sort_groups_perm key_leb (group_sums_of l)) as HP.
  destruct (fold_agg_keys l [] (NoDup_nil _)) as [Hnd Hkeys].
  fold (group_sums_of l) in Hnd, Hkeys.
  assert (Hnd' : NoDup (map fst (groupby_sum_of l))).
  { eapply Permutation_NoDup; [| exact Hnd].
    apply Permutation_map. symmetry. exact HP. }
  split; [exact Hnd' |]. split.
  - intros k v Hin.
    rewrite <- (groupby_selected (key_eqb k) l).
    symmetry.
    apply (sum_for_nodup key_eqb key_eqb_spec k v); [exact Hnd' | exact Hin].
  - intros r Hr.
    eapply Permutation_in;
      [apply Permutation_map; symmetry; exact HP |].
    apply Hkeys. right. apply in_map. exact Hr.
Qed.

End GroupByOf.

(* ------------------------------------------------------------------ *)
(** ** The summaries against the full table *)

(** X10. Any selection of the daily summary by date and board sums to the
    same selection of the full table; in particular the summary keeps
    the grand total of presentations. *)
Theorem daily_summary_selection (df : list row)
  (phi : timestamp -> string -> bool) :
  zsum (map snd
          (filter (fun g => phi (fst (fst g)) (snd (fst g)))
             (daily_summary df)))
  = zsum (map (fun r : row => presentations r)
            (filter (fun r : row => phi (date r) (health_board r)) df))
  /\ zsum (map snd (daily_summary df))
     = zsum (map (fun r : row => presentations r) df).
Proof.
  split.
  - exact (groupby_selected daily_key_eqb daily_key_leb daily_key
             (fun r : row => presentations r) daily_key_eqb_spec
             (fun k => phi (fst k) (snd k)) df).
  - pose proof (groupby_selected daily_key_eqb daily_key_leb daily_key
                  (fun r : row => presentations r) daily_key_eqb_spec
                  (fun _ => true) df) as H.
    rewrite !filter_true in H by reflexivity || (intros; reflexivity).
    exact H.
Qed.

(** Re-aggregation of one cell of the monthly summary from the full
    table. *)
Definition reaggregate_monthly (df : list row) (m hb age : string) (q : Z)
  : Z :=
  zsum (map (fun r : row => presentations r)
          (filter (fun r : row =>
                     String.eqb (period_M (date r)) m
                     && String.eqb (health_board r) hb
                     && String.eqb (age_group r) age
                     && (simd_quintile r =? q)) df)).

Lemma reaggregate_monthly_eq (df : list row) (m hb age : string) (q : Z) :
  reaggregate monthly_key_eqb monthly_key (m, hb, age, q) df
  = reaggregate_monthly df m hb age q.
Proof.
  unfold reaggregate, reaggregate_monthly. f_equal. f_equal.
  apply filter_ext. intro r. unfold monthly_key_eqb, monthly_key.
  rewrite (String.eqb_sym m), (String.eqb_sym hb), (String.eqb_sym age),
    (Z.eqb_sym q).
  reflexivity.
Qed.

(** X11. The monthly summary has one row per (month, board, age group,
    quintile) that occurs in the full table, with the month written
    YYYY-MM, and the total of each row is the sum of [presentations] over
    the rows of the full table of that month, board, age group and
    quintile. *)
Theorem monthly_summary_cells (df : list row) :
  NoDup (map fst (monthly_summary df))
  /\ (forall m hb age q v,
        In (m, hb, age, q, v) (monthly_summary df) ->
        v = reaggregate_monthly df m hb age q)
  /\ (forall r : row,
        In r df ->
        In (period_M (date r), health_board r, age_group r,
            simd_quintile r,
            reaggregate_monthly df (period_M (date r)) (health_board r)
              (age_group r) (simd_quintile r))
           (monthly_summary df)).
Proof.
  destruct (monthly_summary_round_trip df) as [H1 [H2 H3]].
  split; [exact H1 |]. split.
  - intros m hb age q v Hin. rewrite <- reaggregate_monthly_eq.
    apply H2. exact Hin.
  - intros r Hin. rewrite <- reaggregate_monthly_eq.
    apply (H3 r Hin).
Qed.

Lemma monthly_summary_cells_witness :
  In ("2020-01", "NHS Fife", "66-75", 3, 2) (monthly_summary toy_week_table)
  /\ reaggregate_monthly toy_week_table "2020-01" "NHS Fife" "66-75" 3 = 2.
Proof.
  assert (Hin : In ("2020-01", "NHS Fife", "66-75", 3, 2)
                  (monthly_summary toy_week_table))
    by (vm_compute; tauto).
  split; [exact Hin |].
  symmetry.
  exact (proj1 (proj2 (monthly_summary_cells toy_week_table))
           "2020-01" "NHS Fife" "66-75" 3 2 Hin).
Defined.

(** X12. The two summaries agree with each other: for any selection of
    months and boards, the monthly summary restricted to it sums to the
    daily summary restricted to the days of those months and boards. *)
Theorem monthly_daily_consistent (df : list row)
  (chi : string -> string -> bool) :
  zsum (map snd
          (filter (fun g =>
                     let '(m, hb, _, _) := fst g in chi m hb)
             (monthly_summary df)))
  = zsum (map snd
            (filter (fun g => chi (period_M (fst (fst g))) (snd (fst g)))
               (daily_summary df))).
Proof.
  pose proof (groupby_selected monthly_key_eqb monthly_key_leb monthly_key
                (fun r : row => presentations r) monthly_key_eqb_spec
                (fun k => let '(m, hb, _, _) := k in chi m hb) df) as Hm.
  pose proof (groupby_selected daily_key_eqb daily_key_leb daily_key
                (fun r : row => presentations r) daily_key_eqb_spec
                (fun k => chi (period_M (fst k)) (snd k)) df) as Hd.
  unfold monthly_summary, daily_summary, groupby_sum, group_sums.
  unfold groupby_sum_of, group_sums_of in Hm, Hd.
  rewrite Hm, Hd. reflexivity.
Qed.

(* ------------------------------------------------------------------ *)
(** ** The dashboard's national series ([app.py])

    The dashboard reads the three tables back from the files
    [save_data] wrote; the tables below are those tables. *)

(** [scotland_daily = df_daily.groupby('date')['presentations'].sum()
    .reset_index()]. *)
Definition scotland_daily (df_daily : list (timestamp * string * Z))
  : list (timestamp * Z) :=
  groupby_sum_of Z.eqb Z.leb (fun g => fst (fst g)) snd df_daily.

(** X13. The national daily series the dashboard derives from the daily
    summary has one entry per date of the full table, and each entry is
    the sum of [presentations] over all rows of the full table of that
    date, whatever the board. *)
Theorem scotland_daily_totals (df : list row) :
  NoDup (map fst (scotland_daily (daily_summary df)))
  /\ (forall d v,
        In (d, v) (scotland_daily (daily_summary df)) ->
        v = zsum (map (fun r : row => presentations r)
                    (filter (fun r : row => d =? date r) df)))
  /\ (forall r : row,
        In r df ->
        In (date r) (map fst (scotland_daily (daily_summary df)))).
Proof.
  destruct (groupby_sum_of_spec Z.eqb Z.leb
              (fun g : timestamp * string * Z => fst (fst g)) snd
              Z.eqb_eq (daily_summary df)) as [H1 [H2 H3]].
  split; [exact H1 |]. split.
  - intros d v Hin. rewrite (H2 d v Hin).
    exact (groupby_selected daily_key_eqb daily_key_leb daily_key
             (fun r : row => presentations r) daily_key_eqb_spec
             (fun k => d =? fst k) df).
  - intros r Hr.
    destruct (@groupby_sum_spec _ daily_key_eqb daily_key_leb
                daily_key_eqb_spec daily_key df) as [_ [_ Hcover]].
    apply (H3 _ (Hcover r Hr)).
Qed.

Lemma scotland_daily_totals_witness :
  In (18264, 3) (scotland_daily (daily_summary toy_week_table))
  /\ zsum (map (fun r : row => presentations r)
             (filter (fun r : row => 18264 =? date r) toy_week_table)) = 3.
Proof.
  assert (Hin : In (18264, 3) (scotland_daily (daily_summary toy_week_table)))
    by (vm_compute; tauto).
  split; [exact Hin |].
  symmetry.
  exact (proj1 (proj2 (scotland_daily_totals toy_week_table)) 18264 3 Hin).
Defined.

(* ------------------------------------------------------------------ *)
(** ** The dashboard's forecast ([app.py], forecasting page) *)

(** [l.tail(n)]: the last [n] elements. *)
Definition tail (A : Type) (n : nat) (l : list A) : list A :=
  skipn (List.length l - n) l.

(** [.mean()] of a column of integers; of no value it is NaN. *)
Definition mean (l : list Z) : option Q :=
  match l with
  | [] => None
  | _ :: _ => Some (inject_Z (zsum l) / inject_Z (Z.of_nat (List.length l)))%Q
  end.

(** [.max()] of a column of dates; of no date it is NaT. *)
Definition max_date (l : list timestamp) : option timestamp :=
  match l with
  | [] => None
  | d :: rest => Some (fold_left Z.max rest d)
  end.

Section Forecast.

Variable rng : Type.

(** The values [np.random.normal(loc, scale, size)] draws, and the
    sampler itself on numpy's global generator. *)
Variable V : Type.
Variable np_random_normal : Q -> Q -> nat -> rng -> list V * rng.

(** The forecast of the page, from the national daily series: the last
    180 days are the history, the 90 days after its latest date are the
    horizon, and the values are drawn around the mean of the last 30
    totals.  [None] stands for the exception [pd.date_range] raises on a
    missing start, when the series is empty. *)
Definition forecast (scotland_daily : list (timestamp * Z)) (s : rng)
  : option (list timestamp * list V * rng) :=
  let historical := tail 180 scotland_daily in
  match max_date (map fst historical) with
  | None => None
  | Some last_date =>
      let future_dates :=
        map (fun i => last_date + 1 + Z.of_nat i) (seq 0 90) in
      match mean (tail 30 (map snd historical)) with
      | None => None
      | Some recent_avg =>
          let '(future_values, s') :=
            np_random_normal recent_avg (recent_avg * 0.1)%Q 90%nat s in
          Some (future_dates, future_values, s')
      end
  end.

End Forecast.

Lemma tail_tail (A : Type) (m n : nat) (l : list A) :
  (m <= n)%nat -> tail m (tail n l) = tail m l.
Proof.
  intro Hmn. unfold tail.
  rewrite length_skipn, skipn_skipn. f_equal.
  generalize (List.length l). intro k. lia.
Qed.

Lemma map_tail (A B : Type) (f : A -> B) (n : nat) (l : list A) :
  map f (tail n l) = tail n (map f l).
Proof. unfold tail. rewrite length_map, skipn_map. reflexivity. Qed.

Lemma tail_nonempty (A : Type) (n : nat) (l : list A) :
  (0 < n)%nat -> l <> [] -> tail n l <> [].
Proof.
  intros Hn Hl Heq. apply (f_equal (@List.length A)) in Heq.
  unfold tail in Heq. rewrite length_skipn in Heq.
  destruct l as [| x l]; [contradiction |].
  simpl List.length in Heq. revert Heq.
  generalize (List.length l). intros k Heq. lia.
Qed.

Lemma fold_max_spec (l : list Z) :
  forall d0,
    In (fold_left Z.max l d0) (d0 :: l)
    /\ Forall (fun d => d <= fold_left Z.max l d0) (d0 :: l).
Proof.
  induction l as [| x l IH]; intro d0; simpl.
  - split; [left; reflexivity | constructor; [lia | constructor]].
  - destruct (IH (Z.max d0 x)) as [Hin Hall]. split.
    + destruct Hin as [Heq | Hin]; [| right; right; exact Hin].
      rewrite <- Heq. destruct (Z.max_spec d0 x) as [[_ ->] | [_ ->]];
        [right; left; reflexivity | left; reflexivity].
    + inversion Hall as [| ? ? Hm Hrest]; subst.
      constructor; [lia |]. constructor; [lia | exact Hrest].
Qed.

(** X14. When the page shows a forecast, its dates are the 90 consecutive
    days that follow the latest date of the history (the last 180 entries
    of the national series), so no forecast date is a date of the
    history. *)
Theorem forecast_horizon (rng V : Type)
  (np_random_normal : Q -> Q -> nat -> rng -> list V * rng)
  (sd : list (timestamp * Z)) (s : rng)
  (dates : list timestamp) (values : list V) (s' : rng) :
  forecast np_random_normal sd s = Some (dates, values, s') ->
  exists last_date,
    In last_date (map fst (tail 180 sd))
    /\ dates = map (fun i => last_date + 1 + Z.of_nat i) (seq 0 90)
    /\ List.length dates = 90%nat
    /\ (forall d d', In d dates -> In d' (map fst (tail 180 sd)) -> d' < d).
Proof.
  unfold forecast.
  destruct (map fst (tail 180 sd)) as [| d0 rest] eqn:Hdates;
    [discriminate |].
  simpl max_date. cbv zeta.
  destruct (mean (tail 30 (map snd (tail 180 sd)))) as [avg |];
    [| discriminate].
  destruct (np_random_normal avg (avg * 0.1)%Q 90%nat s) as [vals s1].
  intro H.
  assert (Heq : dates
                = map (fun i => fold_left Z.max rest d0 + 1 + Z.of_nat i)
                    (seq 0 90)).
  { injection H. intros _ _ Hd. symmetry. exact Hd. }
  clear H. rewrite Heq.
  destruct (fold_max_spec rest d0) as [Hin Hall].
  exists (fold_left Z.max rest d0).
  split; [exact Hin |]. split; [reflexivity |].
  split; [rewrite length_map, length_seq; reflexivity |].
  intros d d' Hd Hd'.
  apply in_map_iff in Hd. destruct Hd as [i [<- _]].
  rewrite Forall_forall in Hall. specialize (Hall d' Hd'). lia.
Qed.

(** X15. The forecast values, and the generator state left behind, depend
    on the series only through its last 30 totals: two non-empty series
    with the same last 30 totals get the same draw.  No earlier history
    and no date enters the values. *)
Theorem forecast_uses_last_30_totals (rng V : Type)
  (np_random_normal : Q -> Q -> nat -> rng -> list V * rng)
  (sd1 sd2 : list (timestamp * Z)) (s : rng) :
  sd1 <> [] -> sd2 <> [] ->
  tail 30 (map snd sd1) = tail 30 (map snd sd2) ->
  exists dates1 dates2 values s',
    forecast np_random_normal sd1 s = Some (dates1, values, s')
    /\ forecast np_random_normal sd2 s = Some (dates2, values, s').
Proof.
  intros H1 H2 Htail.
  assert (Hshape : forall sd, sd <> [] ->
    exists last avg,
      max_date (map fst (tail 180 sd)) = Some last
      /\ mean (tail 30 (map snd sd)) = Some avg
      /\ forecast np_random_normal sd s
         = Some (map (fun i => last + 1 + Z.of_nat i) (seq 0 90),
                 fst (np_random_normal avg (avg * 0.1)%Q 90%nat s),
                 snd (np_random_normal avg (avg * 0.1)%Q 90%nat s))).
  { intros sd Hsd. unfold forecast. cbv zeta.
    rewrite (map_tail (@snd timestamp Z) 180 sd), tail_tail by lia.
    assert (Hd : tail 180 sd <> []) by (apply tail_nonempty; [lia | exact Hsd]).
    assert (Hv : tail 30 (map snd sd) <> []).
    { apply tail_nonempty; [lia |]. destruct sd; [contradiction | discriminate]. }
    destruct (tail 180 sd) as [| g rest]; [contradiction |].
    destruct (tail 30 (map snd sd)) as [| v vs]; [contradiction |].
    simpl map. simpl max_date. cbv beta iota zeta.
    unfold mean.
    eexists. eexists. split; [reflexivity |]. split; [reflexivity |].
    destruct (np_random_normal _ _ 90%nat s). reflexivity. }
  destruct (Hshape sd1 H1) as [l1 [a1 [_ [Hm1 Hf1]]]].
  destruct (Hshape sd2 H2) as [l2 [a2 [_ [Hm2 Hf2]]]].
  rewrite Htail in Hm1. rewrite Hm1 in Hm2. injection Hm2 as <-.
  do 4 eexists. split; [exact Hf1 | exact Hf2].
Qed.

(** A stand-in for the normal sampler: every value is the mean asked
    for. *)
Definition toy_normal (loc scale : Q) (size : nat) (s : Toy.rng)
  : list Q * Toy.rng :=
  (repeat loc size, Toy.lcg s).

Definition toy_series : list (timestamp * Z) :=
  Eval vm_compute in scotland_daily (daily_summary toy_week_table).

Definition toy_shifted_series : list (timestamp * Z) :=
  map (fun g => (fst g + 365, snd g)) toy_series.

Lemma forecast_horizon_witness :
  exists dates values s',
    forecast toy_normal toy_series 1 = Some (dates, values, s')
    /\ exists last_date,
         In last_date (map fst (tail 180 toy_series))
         /\ dates = map (fun i => last_date + 1 + Z.of_nat i) (seq 0 90)
         /\ List.length dates = 90%nat
         /\ (forall d d', In d dates ->
                          In d' (map fst (tail 180 toy_series)) -> d' < d).
Proof.
  destruct (forecast toy_normal toy_series 1) as [[[dates values] s'] |]
    eqn:Hrun; [| vm_compute in Hrun; discriminate Hrun].
  exists dates, values, s'. split; [reflexivity |].
  exact (forecast_horizon toy_normal toy_series 1 Hrun).
Defined.

Lemma forecast_uses_last_30_totals_witness :
  toy_series <> [] /\ toy_shifted_series <> []
  /\ tail 30 (map snd toy_series) = tail 30 (map snd toy_shifted_series)
  /\ exists dates1 dates2 values s',
       forecast toy_normal toy_series 1 = Some (dates1, values, s')
       /\ forecast toy_normal toy_shifted_series 1
          = Some (dates2, values, s').
Proof.
  assert (H1 : toy_series <> []) by discriminate.
  assert (H2 : toy_shifted_series <> []) by discriminate.
  assert (H3 : tail 30 (map snd toy_series)
               = tail 30 (map snd toy_shifted_series)) by reflexivity.
  split; [exact H1 |]. split; [exact H2 |]. split; [exact H3 |].
  exact (forecast_uses_last_30_totals toy_normal 1 H1 H2 H3).
Defined.

(* ------------------------------------------------------------------ *)
(** ** The size and the profile of the expected count *)

(** The pandemic factor times the trend, year by year from 2019 to 2024:
    1, 1.47, 1.54, 1.38, 1.2, 1.25. *)
Lemma period_factor_bounds (y : Z) :
  2019 <= y <= 2024 ->
  (1 <= Q2R (covid_factor y) * Q2R (year_trend y) <= 1.54)%R.
Proof.
  intro Hy. rewrite Q2R_year_trend.
  assert (Hc : y = 2019 \/ y = 2020 \/ y = 2021 \/ y = 2022 \/ y = 2023
               \/ y = 2024) by lia.
  destruct Hc as [-> | [-> | [-> | [-> | [-> | ->]]]]];
    unfold covid_factor; simpl; unfold Q2R; simpl; lra.
Qed.

(** The exact product over the generated years: between 4.4625 (the
    smallest board on an April Sunday of 2019) and 325.325 (the largest
    board on an October Monday of 2021). *)
Lemma real_product_bounds (hb : string) (dow m y : Z) (lam : R) :
  2019 <= y <= 2024 ->
  expected_presentations (base_demand hb) dow m y = Ok lam ->
  (4.4625 <= lam <= 325.325)%R.
Proof.
  intros Hy. unfold expected_presentations.
  destruct (dict_lookup Z.eqb day_factors dow) as [q |] eqn:Hq;
    [| discriminate].
  intro H. injection H as <-.
  pose proof (base_demand_bounds hb) as HB.
  pose proof (seasonal_factor_bounds m) as HS.
  pose proof (day_factor_bounds _ Hq) as HD.
  pose proof (period_factor_bounds Hy) as HP.
  set (B := Q2R (base_demand hb)) in *.
  set (S := seasonal_factor m) in *.
  set (D := Q2R q) in *.
  set (P := (Q2R (covid_factor y) * Q2R (year_trend y))%R) in *.
  replace (B * S * D * Q2R (covid_factor y) * Q2R (year_trend y))%R
    with (B * S * D * P)%R by (unfold P; ring).
  clearbody B S D P.
  assert (H1 : (7.5 * 0.7 <= B * S <= 125 * 1.3)%R)
    by (apply product_bounds; lra).
  assert (H2 : (7.5 * 0.7 * 0.85 <= B * S * D <= 125 * 1.3 * 1.3)%R)
    by (apply product_bounds; lra).
  assert (H3 : (7.5 * 0.7 * 0.85 * 1 <= B * S * D * P
                <= 125 * 1.3 * 1.3 * 1.54)%R)
    by (apply product_bounds; lra).
  lra.
Qed.

(** X16. Over the generated years 2019 to 2024 the expected count of any
    board, month and weekday, and any value [lam'] within a relative
    [1e-9] of it, lies strictly between 4.46 and 325.4.  The margin
    covers the rounding of the floating-point product, whose extremes
    4.4625 and 325.325 are met only up to the last digit: the Poisson
    sampler is never given a negative or an unbounded mean. *)
Theorem expected_count_bounds (hb : string) (dow m y : Z) (lam lam' : R) :
  2019 <= y <= 2024 ->
  expected_presentations (base_demand hb) dow m y = Ok lam ->
  (Rabs (lam' - lam) <= lam / 1000000000)%R ->
  (4.46 < lam' < 325.4)%R.
Proof.
  intros Hy H Hnear.
  pose proof (real_product_bounds _ _ _ Hy H) as [Hlo Hhi].
  pose proof (Rle_abs (lam' - lam)) as Hup.
  pose proof (Rle_abs (lam - lam')) as Hdown.
  rewrite (Rabs_minus_sym lam lam') in Hdown. lra.
Qed.

Lemma expected_count_bounds_witness :
  2019 <= 2021 <= 2024
  /\ exists lam,
       expected_presentations (base_demand "NHS Greater Glasgow and Clyde")
         0 10 2021 = Ok lam
       /\ (Rabs (lam - lam) <= lam / 1000000000)%R
       /\ (4.46 < lam < 325.4)%R.
Proof.
  assert (Hy : 2019 <= 2021 <= 2024) by lia.
  split; [exact Hy |].
  eexists. split; [reflexivity |].
  match goal with
  | |- (Rabs (?l - ?l) <= _)%R /\ _ =>
      assert (Hnear : (Rabs (l - l) <= l / 1000000000)%R)
  end.
  { pose proof (@real_product_bounds "NHS Greater Glasgow and Clyde" 0 10
                  2021 _ Hy eq_refl) as [Hlo _].
    rewrite Rminus_diag, Rabs_R0. lra. }
  split; [exact Hnear |].
  exact (@expected_count_bounds "NHS Greater Glasgow and Clyde" 0 10 2021 _ _
           Hy eq_refl Hnear).
Defined.

(** The factors of the months the seasonal claim does not compare. *)
Lemma seasonal_factor_other_values :
  seasonal_factor 4 = 0.7%R
  /\ seasonal_factor 5 = (1 - 0.15 * sqrt 3)%R
  /\ seasonal_factor 9 = (1 + 0.15 * sqrt 3)%R
  /\ seasonal_factor 10 = 1.3%R
  /\ seasonal_factor 11 = (1 + 0.15 * sqrt 3)%R
  /\ seasonal_factor 12 = 1.15%R.
Proof.
  unfold seasonal_factor. repeat split; rewrite neg_sin.
  - replace (2 * PI * IZR (4 - 1) / 12)%R with (PI / 2)%R
      by (change (4 - 1) with 3; lra).
    rewrite sin_PI2. lra.
  - replace (2 * PI * IZR (5 - 1) / 12)%R with (PI - PI / 3)%R
      by (change (5 - 1) with 4; lra).
    rewrite sin_PI_x, sin_PI3. lra.
  - replace (2 * PI * IZR (9 - 1) / 12)%R with (PI / 3 + PI)%R
      by (change (9 - 1) with 8; lra).
    rewrite neg_sin, sin_PI3. lra.
  - replace (2 * PI * IZR (10 - 1) / 12)%R with (3 * (PI / 2))%R
      by (change (10 - 1) with 9; lra).
    rewrite sin_3PI2. lra.
  - replace (2 * PI * IZR (11 - 1) / 12)%R with (PI - PI / 3 + PI)%R
      by (change (11 - 1) with 10; lra).
    rewrite neg_sin, sin_PI_x, sin_PI3. lra.
  - replace (2 * PI * IZR (12 - 1) / 12)%R with (PI - PI / 6 + PI)%R
      by (change (12 - 1) with 11; lra).
    rewrite neg_sin, sin_PI_x, sin_PI6. lra.
Qed.

Lemma sqrt_3_bounds : (1.732 < sqrt 3 < 1.7321)%R.
Proof.
  pose proof (sqrt_pos 3) as H0.
  assert (H3 : (sqrt 3 * sqrt 3 = 3)%R) by (apply sqrt_sqrt; lra).
  split; nra.
Qed.

(** X17. The profile of the seasonal factor over the twelve months of a
    year: it rises strictly from April to October, and falls strictly
    from October through December and January to April.  April has the
    lowest factor and October the highest; consecutive months differ by
    more than 0.04. *)
Theorem seasonal_profile :
  StronglySorted (fun a b => (a + 0.04 < b)%R)
    (map seasonal_factor [4; 5; 6; 7; 8; 9; 10])
  /\ StronglySorted (fun a b => (a + 0.04 < b)%R)
       (map seasonal_factor [4; 3; 2; 1; 12; 11; 10]).
Proof.
  destruct seasonal_factor_values as [H1 [H2 [H3 [H6 [H7 H8]]]]].
  destruct seasonal_factor_other_values as [H4 [H5 [H9 [H10 [H11 H12]]]]].
  pose proof sqrt_3_bounds as Hs.
  cbn [map].
  rewrite H1, H2, H3, H4, H5, H6, H7, H8, H9, H10, H11, H12.
  split; repeat constructor; lra.
Qed.

(** X18. For a fixed board, month and year from 1999 on, no weekday has a
    higher expected count than Monday and none a lower one than
    Sunday. *)
Theorem monday_highest_sunday_lowest (hb : string) (dow m y : Z) :
  1999 <= y -> 0 <= dow < 7 ->
  exists l_sunday l l_monday,
    expected_presentations (base_demand hb) 6 m y = Ok l_sunday
    /\ expected_presentations (base_demand hb) dow m y = Ok l
    /\ expected_presentations (base_demand hb) 0 m y = Ok l_monday
    /\ (l_sunday <= l <= l_monday)%R.
Proof.
  intros Hy Hdow.
  destruct (day_factor_defined Hdow) as [q Hq].
  unfold expected_presentations. rewrite Hq. simpl dict_lookup.
  do 3 eexists. repeat (split; [reflexivity |]).
  pose proof (base_demand_positive hb) as HB.
  pose proof (seasonal_factor_bounds m) as HS.
  pose proof (covid_factor_positive y) as HC.
  assert (HT : (0 <= Q2R (year_trend y))%R).
  { rewrite Q2R_year_trend.
    assert (IZR (-20) <= IZR (y - 2019))%R by (apply IZR_le; lia). lra. }
  assert (H85 : (Q2R 0.85 <= Q2R q)%R).
  { apply Qle_Rle. apply dict_lookup_in in Hq.
    assert (All : Forall (fun q => (0.85 <= q)%Q) (map snd day_factors))
      by (repeat constructor; discriminate).
    rewrite Forall_forall in All. apply All. exact Hq. }
  assert (H13 : (Q2R q <= Q2R 1.3)%R).
  { apply Qle_Rle. apply dict_lookup_in in Hq.
    assert (All : Forall (fun q => (q <= 1.3)%Q) (map snd day_factors))
      by (repeat constructor; discriminate).
    rewrite Forall_forall in All. apply All. exact Hq. }
  set (B := Q2R (base_demand hb)) in *.
  set (S := seasonal_factor m) in *.
  set (D := Q2R q) in *.
  set (D6 := Q2R 0.85) in *.
  set (D0 := Q2R 1.3) in *.
  set (C := Q2R (covid_factor y)) in *.
  set (T := Q2R (year_trend y)) in *.
  clearbody B S D D6 D0 C T.
  assert (HBS : (0 <= B * S)%R) by (apply Rmult_le_pos; lra).
  assert (HCT : (0 <= C * T)%R) by (apply Rmult_le_pos; lra).
  replace (B * S * D6 * C * T)%R with ((B * S) * D6 * (C * T))%R by ring.
  replace (B * S * D * C * T)%R with ((B * S) * D * (C * T))%R by ring.
  replace (B * S * D0 * C * T)%R with ((B * S) * D0 * (C * T))%R by ring.
  split; apply Rmult_le_compat_r; try exact HCT;
    apply Rmult_le_compat_l; try exact HBS; assumption.
Qed.

Lemma monday_highest_sunday_lowest_witness :
  exists l_sunday l l_monday,
    expected_presentations (base_demand "NHS Fife") 6 1 2020 = Ok l_sunday
    /\ expected_presentations (base_demand "NHS Fife") 3 1 2020 = Ok l
    /\ expected_presentations (base_demand "NHS Fife") 0 1 2020 = Ok l_monday
    /\ (l_sunday <= l <= l_monday)%R.
Proof.
  apply (@monday_highest_sunday_lowest "NHS Fife" 3 1 2020); lia.
Defined.

(* ------------------------------------------------------------------ *)
(** ** The key of the full table *)

(** The key of a record within the full table. *)
Definition full_key (r : record)
  : string * (timestamp * (string * (Z * string))) :=
  (health_board r, record_key r).

Lemma wpe_conj (rng A : Type) (E : Prop) (m : M rng A)
  (P1 P2 : A -> rng -> Prop) (s : rng) :
  wpe E m P1 s -> wpe E m P2 s ->
  wpe E m (fun a s' => P1 a s' /\ P2 a s') s.
Proof.
  unfold wpe. destruct (m s) as [[a s'] | e]; [| intros H _; exact H].
  intros H1 H2. split; assumption.
Qed.

Lemma nodup_health_boards : NoDup HEALTH_BOARDS.
Proof.
  unfold HEALTH_BOARDS.
  repeat (constructor;
          [simpl; intro H;
           repeat (destruct H as [H | H]; [discriminate H |]); exact H |]).
  constructor.
Qed.

Lemma nodup_split_notin (A : Type) (pre : list A) (x : A) (post : list A) :
  NoDup (pre ++ x :: post) -> ~ In x pre.
Proof.
  intros H Hin. apply NoDup_remove_2 in H.
  apply H. apply in_or_app. left. exact Hin.
Qed.

Lemma boards_key_spec (rng : Type)
  (np_random_poisson : R -> rng -> Z * rng)
  (np_random_multinomial : Z -> list Q -> rng -> list Z * rng)
  (start_date end_date : timestamp) (s : rng) :
  wpe True
    (for_each HEALTH_BOARDS
       (fun all_data board =>
          board_data <-
            generate_time_series_data np_random_poisson
              np_random_multinomial start_date end_date board ;;
          ret (all_data ++ [board_data]))
       [])
    (fun all_data _ => NoDup (map full_key (List.concat all_data))) s.
Proof.
  eapply wpe_mono;
    [| apply (@wpe_for_each_at rng True string (list (list record)) _
                (fun pre all_data _ =>
                   NoDup (map full_key (List.concat all_data))
                   /\ Forall (fun r => In (health_board r) pre)
                        (List.concat all_data))
                HEALTH_BOARDS HEALTH_BOARDS [] [] s eq_refl)].
  - intros all_data s' [H _]. exact H.
  - intros pre hb post acc s' Hsplit [Hnd Hpre].
    assert (Hnew : ~ In hb pre).
    { apply (nodup_split_notin pre hb post). rewrite <- Hsplit.
      exact nodup_health_boards. }
    apply wpe_bind.
    eapply wpe_mono;
      [| apply wpe_conj;
         [apply (generate_spec np_random_poisson (E := True)
                   (np_random_multinomial := np_random_multinomial)
                   (or_introl I) start_date end_date hb s')
         | apply (generate_order_spec np_random_poisson
                    np_random_multinomial start_date end_date hb s')]].
    intros data s'' [Hcell [_ [Hkey _]]].
    apply wpe_ret.
    rewrite concat_app. simpl List.concat. rewrite app_nil_r.
    assert (Hhb : forall r, In r data -> health_board r = hb).
    { intros r Hr. rewrite Forall_forall in Hcell.
      destruct (Hcell r Hr) as [_ [_ H]]. exact H. }
    rewrite Forall_forall in Hpre.
    split.
    + rewrite map_app. apply NoDup_app; [exact Hnd | |].
      * replace (map full_key data) with (map (pair hb) (map record_key data)).
        -- apply nodup_map_pair. exact Hkey.
        -- rewrite map_map. apply map_ext_in. intros r Hr.
           unfold full_key. rewrite (Hhb r Hr). reflexivity.
      * intros k Hk1 Hk2.
        apply in_map_iff in Hk1. destruct Hk1 as [x [Hkx Hx]].
        apply in_map_iff in Hk2. destruct Hk2 as [y [Hky Hy]].
        apply Hnew.
        assert (Hxy : health_board x = health_board y)
          by (unfold full_key in Hkx, Hky; congruence).
        rewrite <- (Hhb y Hy), <- Hxy. apply Hpre. exact Hx.
    + apply Forall_forall. intros r Hr.
      apply in_app_or in Hr. apply in_or_app.
      destruct Hr as [Hr | Hr].
      * left. apply Hpre. exact Hr.
      * right. left. symmetry. apply Hhb. exact Hr.
  - split; constructor.
Qed.

(** X19. When [sort_values] only reorders its rows, (board, date, age
    group, quintile, presentation type) is a key of the table
    [generate_complete_dataset] returns: no two rows agree on all
    five. *)
Theorem complete_dataset_primary_key (rng : Type)
  (np_random_poisson : R -> rng -> Z * rng)
  (np_random_multinomial : Z -> list Q -> rng -> list Z * rng)
  (sort_values : list record -> list record)
  (s : rng) (df : list row) (s' : rng) :
  (forall l, Permutation (sort_values l) l) ->
  generate_complete_dataset np_random_poisson np_random_multinomial
    sort_values s = Ok (df, s') ->
  NoDup (map (fun r : row => full_key r) df).
Proof.
  intros Hperm Hrun.
  unfold generate_complete_dataset in Hrun. cbv zeta in Hrun.
  unfold bind at 1 in Hrun.
  pose proof (boards_key_spec np_random_poisson np_random_multinomial
                (days_from_civil 2019 1 1) (days_from_civil 2024 10 31) s)
    as Hloop.
  unfold wpe in Hloop.
  destruct (for_each HEALTH_BOARDS _ [] s) as [[all_data s1] | e];
    [| discriminate Hrun].
  destruct (List.concat all_data) as [| x0 rest] eqn:Hcat;
    [discriminate Hrun |].
  unfold ret in Hrun. injection Hrun as <- _.
  rewrite map_map. simpl.
  eapply Permutation_NoDup; [| exact Hloop].
  apply Permutation_map. symmetry. apply Hperm.
Qed.

(** *** A run with two boards, followed by hand *)

Lemma for_each_app_ok (rng A S : Type) (body : S -> A -> M rng S)
  (l1 l2 : list A) :
  forall (acc acc' : S) (s s' : rng),
    for_each l1 body acc s = Ok (acc', s') ->
    for_each (l1 ++ l2) body acc s = for_each l2 body acc' s'.
Proof.
  induction l1 as [| x l1 IH]; intros acc acc' s s' H.
  - simpl in H. unfold ret in H. injection H as <- <-. reflexivity.
  - simpl in *. unfold bind in *.
    destruct (body acc x s) as [[acc1 s1] | e]; [| discriminate H].
    apply IH. exact H.
Qed.

Lemma date_range_split (c b : timestamp) (n : nat) :
  forall a, c - a = Z.of_nat n -> c <= b ->
    date_range a b = date_range a (c - 1) ++ c :: date_range (c + 1) b.
Proof.
  induction n as [| n IH]; intros a Ha Hb.
  - assert (a = c) by lia. subst a.
    rewrite (@date_range_empty c (c - 1)) by lia.
    simpl. apply date_range_cons. exact Hb.
  - rewrite (@date_range_cons a b) by lia.
    rewrite (@date_range_cons a (c - 1)) by lia.
    rewrite (IH (a + 1)) by lia. reflexivity.
Qed.

Lemma twin_quiet_day (base : Q) (hb : string) (data : list record)
  (d : timestamp) (s : Z) :
  s <> 4 -> s <> 2141 ->
  day_body Twin.poisson Twin.multinomial base hb data d s
  = Ok (data, s + 1).
Proof.
  intros H4 H2141.
  destruct (day_factor_defined (dt_dayofweek_range d)) as [q Hq].
  unfold day_body, bind, lift, draw, expected_presentations.
  rewrite Hq. unfold Twin.poisson.
  destruct (Z.eqb_spec s 4) as [He | _]; [contradiction |].
  destruct (Z.eqb_spec s 2141) as [He | _]; [contradiction |].
  reflexivity.
Qed.

(** The two records of a day on which the draw is 2. *)
Definition twin_records (d : timestamp) (hb : string) : list record :=
  [ mk_record d hb "0-17" 1 "Self Harm" 1;
    mk_record d hb "18-25" 1 "Self Harm" 1 ].

Lemma twin_loud_day (base : Q) (hb : string) (d : timestamp) (s : Z) :
  s = 4 \/ s = 2141 ->
  day_body Twin.poisson Twin.multinomial base hb [] d s
  = Ok (twin_records d hb, s + 1).
Proof.
  intro Hs.
  destruct (day_factor_defined (dt_dayofweek_range d)) as [q Hq].
  unfold day_body, bind, lift, draw, expected_presentations.
  rewrite Hq. destruct Hs as [-> | ->]; reflexivity.
Qed.

Lemma twin_quiet_days (base : Q) (hb : string) (dates : list timestamp) :
  forall (data : list record) (s : Z),
    4 < s \/ s + Z.of_nat (List.length dates) <= 4 ->
    2141 < s \/ s + Z.of_nat (List.length dates) <= 2141 ->
    for_each dates (day_body Twin.poisson Twin.multinomial base hb) data s
    = Ok (data, s + Z.of_nat (List.length dates)).
Proof.
  induction dates as [| d dates IH]; intros data s H4 H2141.
  - simpl. unfold ret. f_equal. f_equal. lia.
  - simpl List.length in *.
    erewrite for_each_cons_ok by (apply twin_quiet_day; lia).
    rewrite IH by lia. f_equal. f_equal. lia.
Qed.

(** A board whose range holds one of the two positive draws, on the
    day [c]. *)
Lemma twin_loud_board (hb : string) (s : Z) (c : timestamp) :
  first_day <= c <= last_day ->
  s + (c - first_day) = 4 \/ s + (c - first_day) = 2141 ->
  s = 0 \/ s = 2131 ->
  generate_time_series_data Twin.poisson Twin.multinomial first_day
    last_day hb s
  = Ok (twin_records c hb, s + 2131).
Proof.
  change first_day with 17897. change last_day with 20027.
  intros Hc Hfire Hs. unfold generate_time_series_data.
  rewrite (@date_range_split c 20027 (Z.to_nat (c - 17897)) 17897) by lia.
  erewrite for_each_app_ok;
    [| apply twin_quiet_days; rewrite date_range_length; lia].
  erewrite for_each_cons_ok;
    [| apply twin_loud_day; rewrite date_range_length; lia].
  rewrite twin_quiet_days by (rewrite !date_range_length; lia).
  rewrite !date_range_length. f_equal. f_equal. lia.
Qed.

Lemma twin_later_board (hb : string) (s : Z) :
  2141 < s ->
  generate_time_series_data Twin.poisson Twin.multinomial first_day
    last_day hb s
  = Ok ([], s + 2131).
Proof.
  intro Hs. unfold generate_time_series_data.
  rewrite twin_quiet_days by lia.
  rewrite date_range_length. reflexivity.
Qed.

Lemma twin_later_boards (boards : list string) :
  forall (all_data : list (list record)) (s : Z),
    2141 < s ->
    for_each boards
      (fun all_data board =>
         board_data <-
           generate_time_series_data Twin.poisson Twin.multinomial
             first_day last_day board ;;
         ret (all_data ++ [board_data]))
      all_data s
    = Ok (all_data ++ repeat [] (List.length boards),
          s + 2131 * Z.of_nat (List.length boards)).
Proof.
  induction boards as [| b boards IH]; intros all_data s Hs.
  - simpl. unfold ret. rewrite app_nil_r. f_equal. f_equal. lia.
  - simpl for_each. unfold bind at 1. unfold bind at 1.
    rewrite (twin_later_board b Hs). unfold ret at 1.
    rewrite IH by lia. f_equal. f_equal.
    + rewrite <- app_assoc. reflexivity.
    + simpl List.length. lia.
Qed.

Definition twin_first : list record :=
  twin_records (days_from_civil 2019 1 5) "NHS Ayrshire and Arran".
Definition twin_second : list record :=
  twin_records (days_from_civil 2019 1 11) "NHS Borders".

Lemma twin_all_boards :
  for_each HEALTH_BOARDS
    (fun all_data board =>
       board_data <-
         generate_time_series_data Twin.poisson Twin.multinomial
           first_day last_day board ;;
       ret (all_data ++ [board_data]))
    [] 0
  = Ok ([twin_first; twin_second] ++ repeat [] 12, 4262 + 2131 * 12).
Proof.
  unfold HEALTH_BOARDS.
  erewrite for_each_cons_ok;
    [| unfold bind;
       rewrite (@twin_loud_board "NHS Ayrshire and Arran" 0
                  (days_from_civil 2019 1 5))
         by (vm_compute; intuition congruence);
       reflexivity].
  erewrite for_each_cons_ok;
    [| unfold bind;
       rewrite (@twin_loud_board "NHS Borders" (0 + 2131)
                  (days_from_civil 2019 1 11))
         by (vm_compute; intuition congruence);
       reflexivity].
  cbn [app]. change (0 + 2131 + 2131) with 4262.
  rewrite twin_later_boards by lia. reflexivity.
Qed.

(** The four rows of the run: two boards, two age groups each. *)
Definition twin_table : list row :=
  map attach_calendar (twin_first ++ twin_second).

Lemma twin_complete_dataset :
  generate_complete_dataset Twin.poisson Twin.multinomial
    Toy.sort_values 0
  = Ok (twin_table, 29834).
Proof.
  unfold generate_complete_dataset. cbv zeta.
  change (days_from_civil 2019 1 1) with first_day.
  change (days_from_civil 2024 10 31) with last_day.
  unfold bind at 1. rewrite twin_all_boards.
  reflexivity.
Qed.

Lemma complete_dataset_primary_key_witness :
  (forall l, Permutation (Toy.sort_values l) l)
  /\ generate_complete_dataset Twin.poisson Twin.multinomial
       Toy.sort_values 0
     = Ok (twin_table, 29834)
  /\ map (fun r : row => (health_board r, age_group r)) twin_table
     = [ ("NHS Ayrshire and Arran", "0-17");
         ("NHS Ayrshire and Arran", "18-25");
         ("NHS Borders", "0-17"); ("NHS Borders", "18-25") ]
  /\ NoDup (map (fun r : row => full_key r) twin_table).
Proof.
  split; [exact toy_sort_values_perm |].
  split; [exact twin_complete_dataset |].
  split; [reflexivity |].
  exact (@complete_dataset_primary_key Twin.rng Twin.poisson
           Twin.multinomial Toy.sort_values 0 _ 29834
           toy_sort_values_perm twin_complete_dataset).
Defined.
